(** * Backpack: the feature-gate evaluator and the GraphQL schema contract

    Two sources are embedded here.

    - [backend/workers/feature-gates/src/FEATURES.ts]: the arrow function
      [FEATURE_GATES], embedded in [Module FeatureGates] as a function from
      its destructured argument to the object its literal evaluates to, and
      in [Module Runtime] with its effects written out: the heap it reads
      the cohort array from and allocates its result in.
    - [backend/native/backpack-api/src/schema.graphql]: the schema document,
      embedded in [Module Schema] as the syntax tree of its definitions, in
      document order, descriptions included. *)

From stdpp Require Import base strings list gmap.

Open Scope string_scope.

(* ===================================================================== *)
(** * FEATURES.ts *)
(* ===================================================================== *)

Module FeatureGates.

(** The JavaScript values the evaluator handles: [undefined], booleans and
    strings.  The evaluator only compares strings and tests them for
    emptiness, so a [string] stands for the sequence of code units of a
    JavaScript string. *)
Inductive value : Type :=
  | VUndefined
  | VBool (b : bool)
  | VString (s : string).

#[export] Instance value_eq_dec : EqDecision value.
Proof. solve_decision. Defined.

(** ToBoolean: [undefined] and the empty string are falsy, every other
    string is truthy. *)
Definition truthy (v : value) : bool :=
  match v with
  | VUndefined => false
  | VBool b => b
  | VString s => negb (bool_decide (s = ""))
  end.

(** [Boolean(v)]. *)
Definition Boolean (v : value) : value := VBool (truthy v).

(** [a && b]: the left operand when it is falsy, the right one otherwise. *)
Definition logical_and (a b : value) : value :=
  if truthy a then b else a.

(** [xs.includes(v)] on a [string[]]: SameValueZero against each element. *)
Definition includes (xs : list string) (v : value) : value :=
  VBool (bool_decide (v ∈ VString <$> xs)).

(** The destructured parameter [{ dropzoneUsers: string[]; userId?: string }]. *)
Record Args : Type := mkArgs {
  dropzoneUsers : list string;
  userId : option string;
}.

(** The value the binding [userId] holds: [undefined] when it is left out. *)
Definition binding (o : option string) : value :=
  match o with
  | Some s => VString s
  | None => VUndefined
  end.

(** An object literal is a sequence of property definitions; evaluating it
    defines them in order, a later definition of a key replacing an earlier
    one. *)
Definition object_of (props : list (string * value)) : gmap string value :=
  foldl (λ o kv, <[kv.1 := kv.2]> o) ∅ props.

(** The property definitions of the literal [FEATURE_GATES] returns, in
    source order. *)
Definition FEATURE_GATES_literal (a : Args) : list (string * value) :=
  [ ("STRIPE_ENABLED", VBool true);
    ("PRIMARY_PUBKEY_ENABLED", VBool true);
    ("SWAP_FEES_ENABLED", VBool false);
    ("DROPZONE_ENABLED",
       Boolean (logical_and (binding (userId a))
                            (includes (dropzoneUsers a) (binding (userId a)))));
    ("STICKER_ENABLED", VBool true);
    ("BARTER_ENABLED", VBool false) ].

Definition FEATURE_GATES (a : Args) : gmap string value :=
  object_of (FEATURE_GATES_literal a).

(** Modelled from the spec: the keys of [FEATURE_GATES_MAP], a type imported
    from [@coral-xyz/common] whose declaration is not among the sources; the
    spec's known feature universe. *)
Definition FEATURE_GATES_MAP : list string :=
  [ "STRIPE_ENABLED"; "PRIMARY_PUBKEY_ENABLED"; "SWAP_FEES_ENABLED";
    "DROPZONE_ENABLED"; "STICKER_ENABLED"; "BARTER_ENABLED" ].

(** [o satisfies { [feature in keyof FEATURE_GATES_MAP]: boolean }] for an
    object literal: every key of the map is a boolean property of [o], and
    [o] has no property besides. *)
Definition satisfies (keys : list string) (o : gmap string value) : Prop :=
  (∀ k, k ∈ keys → ∃ b, o !! k = Some (VBool b)) ∧ (∀ k, k ∈ dom o → k ∈ keys).

End FeatureGates.

(* ===================================================================== *)
(** * FEATURES.ts, run in a JavaScript world *)
(* ===================================================================== *)

(** The same arrow function with its effects written out.  A call runs in a
    world: a heap of arrays and objects reached through references, and the
    rest of the program's state, of any type [E] (globals, the clock, what
    has been read and written so far).  The function receives a reference to
    the cohort array, reads it through [includes], and returns a reference
    to the object its literal creates. *)
Module Runtime.
Import FeatureGates.

(** References into the heap. *)
Definition loc : Type := positive.

(** What a reference holds: a [string[]] or an object with its
    properties. *)
Inductive cell : Type :=
  | Array (elements : list string)
  | Object (properties : gmap string value).

Record World (E : Type) : Type := mkWorld {
  heap : gmap loc cell;
  ambient : E;
}.
Arguments mkWorld {E} heap ambient.
Arguments heap {E} w.
Arguments ambient {E} w.

(** How an evaluation ends: with a value or with a thrown error. *)
Inductive outcome (A : Type) : Type :=
  | Returned (a : A)
  | Thrown (error : string).
Arguments Returned {A} a.
Arguments Thrown {A} error.

(** An evaluation: from the world before to its outcome and the world
    after. *)
Definition JS (E A : Type) : Type := World E → outcome A * World E.

#[export] Instance JS_ret {E} : MRet (JS E) :=
  λ A a w, (Returned a, w).

(** Sequencing: a thrown error ends the evaluation. *)
#[export] Instance JS_bind {E} : MBind (JS E) :=
  λ A B k m w,
    match m w with
    | (Returned a, w') => k a w'
    | (Thrown e, w') => (Thrown e, w')
    end.

(** [{] of an object literal: a new, empty object at a reference the heap
    does not use. *)
Definition new_object {E} : JS E loc :=
  λ w, let o := fresh (dom (heap w)) in
       (Returned o, mkWorld (<[o := Object ∅]> (heap w)) (ambient w)).

(** [key: v] of an object literal: defines the property on the object under
    construction. *)
Definition define_property {E} (o : loc) (k : string) (v : value) : JS E unit :=
  λ w, match heap w !! o with
       | Some (Object props) =>
           (Returned (), mkWorld (<[o := Object (<[k := v]> props)]> (heap w))
                           (ambient w))
       | _ => (Thrown "TypeError", w)
       end.

(** [xs.includes(v)] through the reference [xs]: reads the array. *)
Definition call_includes {E} (xs : loc) (v : value) : JS E value :=
  λ w, match heap w !! xs with
       | Some (Array elements) => (Returned (includes elements v), w)
       | _ => (Thrown "TypeError", w)
       end.

(** [a && b]: [b] is evaluated only when [a] is truthy. *)
Definition and_then {E} (a : value) (b : JS E value) : JS E value :=
  if truthy a then b else mret a.

(** The arrow function: the literal is created, its six properties are
    defined in source order, and its reference is returned. *)
Definition FEATURE_GATES_run {E} (dropzoneUsers : loc) (userId : option string)
  : JS E loc :=
  o ← new_object;
  define_property o "STRIPE_ENABLED" (VBool true);;
  define_property o "PRIMARY_PUBKEY_ENABLED" (VBool true);;
  define_property o "SWAP_FEES_ENABLED" (VBool false);;
  d ← and_then (binding userId) (call_includes dropzoneUsers (binding userId));
  define_property o "DROPZONE_ENABLED" (Boolean d);;
  define_property o "STICKER_ENABLED" (VBool true);;
  define_property o "BARTER_ENABLED" (VBool false);;
  mret o.

End Runtime.

(* ===================================================================== *)
(** * schema.graphql *)
(* ===================================================================== *)

Module Schema.

(** ** The syntax of a schema document *)

(** A type reference: [T], [[T]] or [T!]. *)
Inductive TypeRef : Type :=
  | Named (name : string)
  | ListOf (t : TypeRef)
  | NonNull (t : TypeRef).

(** The constant values the document passes to directives. *)
Inductive Value : Type :=
  | IntValue (n : Z)
  | StringValue (s : string)
  | BooleanValue (b : bool)
  | EnumValue (e : string).

(** A directive applied to a field: [@name(arg: value ...)]. *)
Record Directive : Type := At {
  d_name : string;
  d_arguments : list (string * Value);
}.

(** An argument of a field or of a directive definition, or a field of an
    input object: [name: T], with the description above it when there is
    one. *)
Record InputValueDefinition : Type := Input {
  i_description : option string;
  i_name : string;
  i_type : TypeRef;
}.

(** A field of an object or interface type:
    [name(arguments): T @directives]. *)
Record FieldDefinition : Type := Field {
  f_description : option string;
  f_name : string;
  f_arguments : list InputValueDefinition;
  f_type : TypeRef;
  f_directives : list Directive;
}.

(** [type Name implements Interfaces { fields }]. *)
Record ObjectType : Type := Object {
  o_description : option string;
  o_name : string;
  o_interfaces : list string;
  o_fields : list FieldDefinition;
}.

(** The places a directive definition may name after [on]. *)
Inductive DirectiveLocation : Type :=
  | QUERY | MUTATION | SUBSCRIPTION | FIELD | FRAGMENT_DEFINITION
  | FRAGMENT_SPREAD | INLINE_FRAGMENT | VARIABLE_DEFINITION
  | SCHEMA | SCALAR | OBJECT | FIELD_DEFINITION | ARGUMENT_DEFINITION
  | INTERFACE | UNION | ENUM | ENUM_VALUE | INPUT_OBJECT
  | INPUT_FIELD_DEFINITION.

(** The definitions a schema document is made of. *)
Inductive TypeSystemDefinition : Type :=
  | SchemaDefinition (roots : list (string * string))
  | ScalarTypeDefinition (description : option string) (name : string)
  | DirectiveDefinition (description : option string) (name : string)
      (arguments : list InputValueDefinition)
      (locations : list DirectiveLocation)
  | ObjectTypeDefinition (o : ObjectType)
  | InterfaceTypeDefinition (description : option string) (name : string)
      (fields : list FieldDefinition)
  | EnumTypeDefinition (description : option string) (name : string)
      (values : list string)
  | InputObjectTypeDefinition (description : option string) (name : string)
      (fields : list InputValueDefinition).

#[export] Instance TypeRef_eq_dec : EqDecision TypeRef.
Proof. solve_decision. Defined.
#[export] Instance Value_eq_dec : EqDecision Value.
Proof. solve_decision. Defined.
#[export] Instance Directive_eq_dec : EqDecision Directive.
Proof. solve_decision. Defined.
#[export] Instance InputValueDefinition_eq_dec : EqDecision InputValueDefinition.
Proof. solve_decision. Defined.
#[export] Instance FieldDefinition_eq_dec : EqDecision FieldDefinition.
Proof. solve_decision. Defined.
#[export] Instance ObjectType_eq_dec : EqDecision ObjectType.
Proof. solve_decision. Defined.
#[export] Instance DirectiveLocation_eq_dec : EqDecision DirectiveLocation.
Proof. solve_decision. Defined.
#[export] Instance TypeSystemDefinition_eq_dec : EqDecision TypeSystemDefinition.
Proof. solve_decision. Defined.

(** ** The document

    One definition per definition of schema.graphql, under its name there:
    an [ObjectType] for each [type], a [TypeSystemDefinition] for the others.
    A description is the value of its block string. *)

Definition schema : TypeSystemDefinition :=
  SchemaDefinition [ ("mutation", "Mutation"); ("query", "Query") ].

Definition JSONObject : TypeSystemDefinition :=
  ScalarTypeDefinition
    (Some "Custom scalar to handle the parsing of arbitrary JSON object data.")
    "JSONObject".

Definition cacheControl : TypeSystemDefinition :=
  DirectiveDefinition
    (Some "Definition of cache control directive for Apollo to leverage with the plugin.")
    "cacheControl"
    [ Input None "maxAge" (Named "Int");
      Input None "scope" (Named "CacheControlScope");
      Input None "inheritMaxAge" (Named "Boolean") ]
    [ FIELD_DEFINITION; OBJECT; INTERFACE; UNION ].

Definition Mutation : ObjectType :=
  Object
    (Some "Root level mutation type.")
    "Mutation" []
    [ Field (Some "Authenticate a user and set the JWT in their cookies.")
        "authenticate"
        [ Input None "chainId" (NonNull (Named "ChainID"));
          Input None "message" (NonNull (Named "String"));
          Input None "publicKey" (NonNull (Named "String"));
          Input None "signature" (NonNull (Named "String")) ]
        (NonNull (Named "String")) [];
      Field (Some "Deauthenticate the current user and clear their JWT cookie.")
        "deauthenticate" [] (NonNull (Named "String")) [];
      Field (Some "Attempt to add a new wallet public key to the user account.")
        "importPublicKey"
        [ Input None "chainId" (NonNull (Named "ChainID"));
          Input None "address" (NonNull (Named "String"));
          Input None "signature" (NonNull (Named "String")) ]
        (Named "Boolean") [];
      Field (Some "Allows users to send friend requests to another remote user.")
        "sendFriendRequest"
        [ Input None "otherUserId" (NonNull (Named "String"));
          Input None "accept" (NonNull (Named "Boolean")) ]
        (Named "Boolean") [] ].

Definition Query : ObjectType :=
  Object
    (Some "Root level query type.")
    "Query" []
    [ Field (Some "Get the entire or a specific entry of a token list.")
        "tokenList"
        [ Input None "chainId" (NonNull (Named "ChainID"));
          Input None "filters" (Named "TokenListEntryFiltersInput") ]
        (NonNull (ListOf (Named "TokenListEntry")))
        [ At "cacheControl" [("maxAge", IntValue 600)] ];
      Field (Some "Fetch a user by their Backpack account username. The username is inferred by the
presence of a valid and verified JWT.")
        "user" [] (Named "User")
        [ At "cacheControl" [("maxAge", IntValue 60); ("scope", EnumValue "PRIVATE")] ];
      Field (Some "Fetching a wallet and it's assets by the public key address and associated `ChainID`.")
        "wallet"
        [ Input None "chainId" (NonNull (Named "ChainID"));
          Input None "address" (NonNull (Named "String")) ]
        (Named "Wallet")
        [ At "deprecated" [("reason", StringValue "Should use the user entrypoint for authentication identities.")];
          At "cacheControl" [("maxAge", IntValue 60)] ] ].

Definition CacheControlScope : TypeSystemDefinition :=
  EnumTypeDefinition
    (Some "Scope enum for cache control.")
    "CacheControlScope" [ "PUBLIC"; "PRIVATE" ].

Definition ChainID : TypeSystemDefinition :=
  EnumTypeDefinition
    (Some "Chain ID enum variants for the supported blockchains in the API.")
    "ChainID" [ "ETHEREUM"; "SOLANA" ].

Definition FriendRequestType : TypeSystemDefinition :=
  EnumTypeDefinition
    (Some "Enum for associating a friend request with the direction of how it was sent.")
    "FriendRequestType" [ "RECEIVED"; "SENT" ].

Definition SortDirection : TypeSystemDefinition :=
  EnumTypeDefinition
    (Some "Enum for specifying the direction of sorting a list of items.")
    "SortDirection" [ "ASC"; "DESC" ].

Definition BalanceFiltersInput : TypeSystemDefinition :=
  InputObjectTypeDefinition
    (Some "Input filter type for fetching wallet balances.")
    "BalanceFiltersInput"
    [ Input (Some "If requested, only provide balances for non-native tokens that are listed on CoinGecko.")
      "marketListedTokensOnly" (Named "Boolean") ].

Definition NftFiltersInput : TypeSystemDefinition :=
  InputObjectTypeDefinition
    (Some "Input filter type for fetching user wallet NFTs.")
    "NftFiltersInput"
    [ Input (Some "A list of mint or contract addresses to filter the response.")
      "addresses" (ListOf (NonNull (Named "String"))) ].

Definition NotificationFiltersInput : TypeSystemDefinition :=
  InputObjectTypeDefinition
    (Some "Input filter type for fetching user notifications.")
    "NotificationFiltersInput"
    [ Input (Some "The limit for number of items desired in the response.")
      "limit" (Named "Int");
      Input (Some "The direction to sort the timestamps by.")
      "sortDirection" (Named "SortDirection");
      Input (Some "Flag to filter for only unread notifications of the user.")
      "unreadOnly" (Named "Boolean") ].

Definition TokenListEntryFiltersInput : TypeSystemDefinition :=
  InputObjectTypeDefinition
    (Some "Input filter type for fetching a specific entry from a token list.")
    "TokenListEntryFiltersInput"
    [ Input (Some "The mint or contract address of the token.")
      "addresses" (ListOf (NonNull (Named "String")));
      Input (Some "The market listing name of the token.")
      "name" (Named "String");
      Input (Some "The market listing symbol of the token.")
      "symbols" (ListOf (NonNull (Named "String"))) ].

Definition TransactionFiltersInput : TypeSystemDefinition :=
  InputObjectTypeDefinition
    (Some "Input filter type for fetching transaction history.")
    "TransactionFiltersInput"
    [ Input (Some "Block hash or signature to search after.")
      "after" (Named "String");
      Input (Some "Block hash or signature to search before.")
      "before" (Named "String");
      Input (Some "A token mint or contract address to filter for.")
      "token" (Named "String") ].

Definition WalletFiltersInput : TypeSystemDefinition :=
  InputObjectTypeDefinition
    (Some "Input filter type for fetching user wallets and their data.")
    "WalletFiltersInput"
    [ Input (Some "A `ChainID` value to filter for all of the public keys of the user for a given blockchain.")
      "chainId" (Named "ChainID");
      Input (Some "Flag to filter for only the primary wallets for each registered blockchain of the user.")
      "primaryOnly" (Named "Boolean");
      Input (Some "A list of public keys to filter in the response.")
      "pubkeys" (ListOf (NonNull (Named "String"))) ].

Definition Node : TypeSystemDefinition :=
  InterfaceTypeDefinition
    (Some "Interface to enforce the implementation of an `id` field on a type.")
    "Node"
    [ Field (Some "Globally unique identifier.")
        "id" [] (NonNull (Named "ID")) [] ].

Definition PageInfo : ObjectType :=
  Object
    (Some "Relay specification for a connection's page information.")
    "PageInfo" []
    [ Field (Some "Flag to indicate if the connection has another page of edges.")
        "hasNextPage" [] (NonNull (Named "Boolean")) [];
      Field (Some "Flag to indicate if the connection has a previous page of edges.")
        "hasPreviousPage" [] (NonNull (Named "Boolean")) [];
      Field (Some "Cursor for the first edge in the page.")
        "startCursor" [] (Named "String") [];
      Field (Some "Cursor for the last edge in the page.")
        "endCursor" [] (Named "String") [] ].

Definition Balances : ObjectType :=
  Object
    (Some "Top-level type for providing wallet balance information.
Should provide details about native and non-native token balances with aggregation details.")
    "Balances" ["Node"]
    [ Field (Some "Globally unique identifier for a wallet's balances data.")
        "id" [] (NonNull (Named "ID")) [];
      Field (Some "The numerical value representing the aggregated market value of all fungible assets in the wallet.")
        "aggregate" [] (NonNull (Named "BalanceAggregate")) [];
      Field (Some "The Relay connection of token account balances and market data for tokens owned by the wallet.")
        "tokens" [] (Named "TokenBalanceConnection")
        [ At "cacheControl" [("inheritMaxAge", BooleanValue true)] ] ].

Definition BalanceAggregate : ObjectType :=
  Object
    (Some "The aggregate market balance data for all balances in a wallet.")
    "BalanceAggregate" ["Node"]
    [ Field (Some "Globally unique identifier for the balance aggregate.")
        "id" [] (NonNull (Named "ID")) [];
      Field (Some "The aggregate percentage of change.")
        "percentChange" [] (NonNull (Named "Float")) [];
      Field (Some "The aggregate USD value of all balance holdings.")
        "value" [] (NonNull (Named "Float")) [];
      Field (Some "The aggregate change in USD value.")
        "valueChange" [] (NonNull (Named "Float")) [] ].

Definition Collection : ObjectType :=
  Object
    (Some "`Nft` collection sub-type definition.")
    "Collection" ["Node"]
    [ Field (Some "Globally unique identifier for an NFT collection object.")
        "id" [] (NonNull (Named "ID")) [];
      Field (Some "The mint or contract address of the collection, presenting an NFT's parental entity.")
        "address" [] (NonNull (Named "String")) [];
      Field (Some "The image link for the collection or parental contract entity.")
        "image" [] (Named "String") [];
      Field (Some "The name of the collection or parental contract entity.")
        "name" [] (Named "String") [];
      Field (Some "Flag to indicate whether or not it has been verified by the relevant ecosystem standards.")
        "verified" [] (NonNull (Named "Boolean")) [] ].

Definition Friend : ObjectType :=
  Object
    (Some "Represents a friend reference for the parent `User`.")
    "Friend" ["Node"]
    [ Field (Some "Globally unique identifier for a friend of a user.")
        "id" [] (NonNull (Named "ID")) [];
      Field (Some "The image link for a friend's user avatar.")
        "avatar" [] (NonNull (Named "String")) [];
      Field (Some "The Backpack username of the friend.")
        "username" [] (NonNull (Named "String")) [] ].

Definition FriendRequest : ObjectType :=
  Object
    (Some "Friend request data for a user.")
    "FriendRequest" ["Node"]
    [ Field (Some "Globally unique identifier for a single friend request entity.")
        "id" [] (NonNull (Named "ID")) [];
      Field (Some "The type of friend request to indicate whether it was sent or received by the user.")
        "type" [] (NonNull (Named "FriendRequestType")) [];
      Field (Some "The recipient or sending Backpack user ID of the request.")
        "userId" [] (NonNull (Named "String")) [] ].

Definition Friendship : ObjectType :=
  Object
    (Some "Wrapper type for all user friendship data.")
    "Friendship" []
    [ Field (Some "A list of Backpack friends of the user.")
        "friends" [] (ListOf (NonNull (Named "Friend")))
        [ At "cacheControl" [("maxAge", IntValue 60); ("scope", EnumValue "PRIVATE")] ];
      Field (Some "A list of pending Backpack friend requests related to the user.")
        "requests" [] (ListOf (NonNull (Named "FriendRequest")))
        [ At "cacheControl" [("maxAge", IntValue 60); ("scope", EnumValue "PRIVATE")] ] ].

Definition Listing : ObjectType :=
  Object
    (Some "NFT listing data pulling from marketplaces.")
    "Listing" ["Node"]
    [ Field (Some "Globally unique identifier for an NFT marketplace listing.")
        "id" [] (NonNull (Named "ID")) [];
      Field (Some "The display amount of the current listing price.")
        "amount" [] (NonNull (Named "String")) [];
      Field (Some "The marketplace or platform that the NFT is currently listing on.")
        "source" [] (NonNull (Named "String")) [];
      Field (Some "A link to the NFT's listing on the marketplace.")
        "url" [] (NonNull (Named "String")) [] ].

Definition MarketData : ObjectType :=
  Object
    (Some "Coingecko and computed market and price data for a token.")
    "MarketData" ["Node"]
    [ Field (Some "Globally unqiue identifier for the token's market data.")
        "id" [] (NonNull (Named "ID")) [];
      Field (Some "A timestamp of the last date of when the market data was updated.")
        "lastUpdatedAt" [] (NonNull (Named "String")) [];
      Field (Some "The percentage of change since the latest market data update.")
        "percentChange" [] (NonNull (Named "Float")) [];
      Field (Some "The current USD price of the token according to the market data.")
        "price" [] (NonNull (Named "Float")) [];
      Field (Some "Time series price data for the token to be used for creating a sparkline.")
        "sparkline" [] (NonNull (ListOf (NonNull (Named "Float")))) [];
      Field (Some "The numerical amount change in USD since the latest market data update.")
        "usdChange" [] (NonNull (Named "Float")) [];
      Field (Some "The value of the wallet's currently holdings of the token in USD.")
        "value" [] (NonNull (Named "Float")) [];
      Field (Some "The value change in USD of the wallet's holdings of the token is USD.")
        "valueChange" [] (NonNull (Named "Float")) [] ].

Definition Nft : ObjectType :=
  Object
    (Some "Generic NFT object type definition to provide on-chain and off-chain metadata.")
    "Nft" ["Node"]
    [ Field (Some "Globally unique identifier for an NFT.")
        "id" [] (NonNull (Named "ID")) [];
      Field (Some "The mint or contract address of the item.")
        "address" [] (NonNull (Named "String")) [];
      Field (Some "The list of attributes or traits found in the item's metadata.")
        "attributes" [] (ListOf (NonNull (Named "NftAttribute")))
        [ At "cacheControl" [("inheritMaxAge", BooleanValue true)] ];
      Field (Some "The collection or contract parental entity of the item.")
        "collection" [] (Named "Collection")
        [ At "cacheControl" [("inheritMaxAge", BooleanValue true)] ];
      Field (Some "Whether or not the NFT is using on-chain compression.")
        "compressed" [] (NonNull (Named "Boolean")) [];
      Field (Some "The description of the NFT found in the metadata.")
        "description" [] (Named "String") [];
      Field (Some "The image link of the NFT found in the metadata.")
        "image" [] (Named "String") [];
      Field (Some "Possible marketplace or platform listing data for the NFT for sale.")
        "listing" [] (Named "Listing")
        [ At "cacheControl" [("maxAge", IntValue 60)] ];
      Field (Some "The link to the off-chain metadata.")
        "metadataUri" [] (Named "String") [];
      Field (Some "The name of the NFT found in the metadata.")
        "name" [] (Named "String") [];
      Field (Some "The owning wallet's public key.")
        "owner" [] (NonNull (Named "String")) [];
      Field (Some "The associated token account address or contract token ID of the individual item.")
        "token" [] (NonNull (Named "String")) [] ].

Definition NftAttribute : ObjectType :=
  Object
    (Some "NFT `attributes` list sub-type definition.")
    "NftAttribute" []
    [ Field (Some "The trait name of the attribute.")
        "trait" [] (NonNull (Named "String")) [];
      Field (Some "The item's value for the specified trait type.")
        "value" [] (NonNull (Named "String")) [] ].

Definition NftConnection : ObjectType :=
  Object
    (Some "Relay connection specification for `Nft` edges.")
    "NftConnection" []
    [ Field None
        "edges" [] (NonNull (ListOf (NonNull (Named "NftEdge")))) [];
      Field None
        "pageInfo" [] (NonNull (Named "PageInfo")) [] ].

Definition NftEdge : ObjectType :=
  Object
    (Some "Relay edge specification for `Nft` nodes.")
    "NftEdge" []
    [ Field None
        "cursor" [] (NonNull (Named "String")) [];
      Field None
        "node" [] (NonNull (Named "Nft")) [] ].

Definition Notification : ObjectType :=
  Object
    (Some "Notification data type for user notification reads.")
    "Notification" ["Node"]
    [ Field (Some "Globally unique identifier for a specific notification.")
        "id" [] (NonNull (Named "ID")) [];
      Field (Some "Application identity information if the notification was from an xNFT.")
        "app" [] (Named "NotificationApplicationData")
        [ At "cacheControl" [("maxAge", IntValue 180)] ];
      Field (Some "Arbitrary body data of the notification parsed as an object.")
        "body" [] (NonNull (Named "JSONObject")) [];
      Field (Some "The emitting source of the notification.")
        "source" [] (NonNull (Named "String")) [];
      Field (Some "The timestamp that the notification was created.")
        "timestamp" [] (NonNull (Named "String")) [];
      Field (Some "The title of the notification.")
        "title" [] (NonNull (Named "String")) [];
      Field (Some "Flag to indicate whether it has been viewed or not by the user.")
        "viewed" [] (NonNull (Named "Boolean")) [] ].

Definition NotificationApplicationData : ObjectType :=
  Object
    None
    "NotificationApplicationData" ["Node"]
    [ Field (Some "Globally unique identifier for the node.")
        "id" [] (NonNull (Named "ID")) [];
      Field (Some "The image link to the application's icon.")
        "image" [] (NonNull (Named "String")) [];
      Field (Some "The name of the application.")
        "name" [] (NonNull (Named "String")) [] ].

Definition NotificationConnection : ObjectType :=
  Object
    (Some "Relay connection specification for `Notification` edges.")
    "NotificationConnection" []
    [ Field (Some "The database integer ID of the last read notification of the user.")
        "lastReadId" [] (Named "Int") [];
      Field None
        "edges" [] (NonNull (ListOf (NonNull (Named "NotificationEdge")))) [];
      Field None
        "pageInfo" [] (NonNull (Named "PageInfo")) [] ].

Definition NotificationEdge : ObjectType :=
  Object
    (Some "Relay edge specification for `Notification` nodes.")
    "NotificationEdge" []
    [ Field None
        "cursor" [] (NonNull (Named "String")) [];
      Field None
        "node" [] (NonNull (Named "Notification")) [] ].

Definition TokenBalance : ObjectType :=
  Object
    (Some "Generic native or non-native token data and balance for a `Wallet`.")
    "TokenBalance" ["Node"]
    [ Field (Some "Globally unqiue identifier for the token balance object in a wallet.")
        "id" [] (NonNull (Named "ID")) [];
      Field (Some "The associated token account or wallet + contract address of the wallet.")
        "address" [] (NonNull (Named "String")) [];
      Field (Some "The unformated amount of tokens held for the specific contract or mint.")
        "amount" [] (NonNull (Named "String")) [];
      Field (Some "The number of decimals associated with the contract or mint.")
        "decimals" [] (NonNull (Named "Int")) [];
      Field (Some "The formatted display amount for the wallet's holdings of the token.")
        "displayAmount" [] (NonNull (Named "String")) [];
      Field (Some "Market price data for the token contract or mint.")
        "marketData" [] (Named "MarketData")
        [ At "cacheControl" [("maxAge", IntValue 180)] ];
      Field (Some "The address of the token mint or contract.")
        "token" [] (NonNull (Named "String")) [];
      Field (Some "The possible entry in the token registry list for the mint or contract address.")
        "tokenListEntry" [] (Named "TokenListEntry") [] ].

Definition TokenBalanceConnection : ObjectType :=
  Object
    (Some "Relay connection specification for `TokenBalance` edges.")
    "TokenBalanceConnection" []
    [ Field None
        "edges" [] (NonNull (ListOf (NonNull (Named "TokenBalanceEdge")))) [];
      Field None
        "pageInfo" [] (NonNull (Named "PageInfo")) [] ].

Definition TokenBalanceEdge : ObjectType :=
  Object
    (Some "Relay edge specification for `TokenBalance` nodes.")
    "TokenBalanceEdge" []
    [ Field None
        "cursor" [] (NonNull (Named "String")) [];
      Field None
        "node" [] (NonNull (Named "TokenBalance")) [] ].

Definition TokenListEntry : ObjectType :=
  Object
    None
    "TokenListEntry" ["Node"]
    [ Field (Some "Globally unique identifier for the list entry.")
        "id" [] (NonNull (Named "ID")) [];
      Field (Some "The mint or contract address of the token.")
        "address" [] (NonNull (Named "String")) [];
      Field (Some "The Coingecko market listing ID.")
        "coingeckoId" [] (Named "String") [];
      Field (Some "The logo associated with the token.")
        "logo" [] (Named "String") [];
      Field (Some "The registered name of the token.")
        "name" [] (NonNull (Named "String")) [];
      Field (Some "The registered symbol of the token.")
        "symbol" [] (NonNull (Named "String")) [] ].

Definition Transaction : ObjectType :=
  Object
    (Some "Generic on-chain transaction details structure.")
    "Transaction" ["Node"]
    [ Field (Some "Globally unique identifier for a single transaction.")
        "id" [] (NonNull (Named "ID")) [];
      Field (Some "The semantic description of the transaction effects.")
        "description" [] (Named "String") [];
      Field (Some "The block number or slot that the transaction was committed to.")
        "block" [] (NonNull (Named "Float")) [];
      Field (Some "The error message for the transaction if it failed.")
        "error" [] (Named "String") [];
      Field (Some "The amount in fees that were paid for processing the transaction.")
        "fee" [] (Named "String") [];
      Field (Some "The address of the wallet that paid the processing fees.")
        "feePayer" [] (Named "String") [];
      Field (Some "The transaction hash or signature.")
        "hash" [] (NonNull (Named "String")) [];
      Field (Some "A list of NFT mints or contract + token IDs associated with the transaction.")
        "nfts" [] (ListOf (Named "String")) [];
      Field (Some "The raw JSON data received from the index API response for the item.")
        "raw" [] (NonNull (Named "JSONObject")) [];
      Field (Some "The source or program that is associated with the transaction.")
        "source" [] (Named "String") [];
      Field (Some "The timestamp of the execution or commitment of the transaction.")
        "timestamp" [] (NonNull (Named "String")) [];
      Field (Some "The category or type of transaction.")
        "type" [] (NonNull (Named "String")) [] ].

Definition TransactionConnection : ObjectType :=
  Object
    (Some "Relay connection specification for `Transaction` edges.")
    "TransactionConnection" []
    [ Field None
        "edges" [] (NonNull (ListOf (NonNull (Named "TransactionEdge")))) [];
      Field None
        "pageInfo" [] (NonNull (Named "PageInfo")) [] ].

Definition TransactionEdge : ObjectType :=
  Object
    (Some "Relay edge specification for `Transaction` nodes.")
    "TransactionEdge" []
    [ Field None
        "cursor" [] (NonNull (Named "String")) [];
      Field None
        "node" [] (NonNull (Named "Transaction")) [] ].

Definition User : ObjectType :=
  Object
    (Some "Backpack user type definition so provide data about all of the user's
assets, peripheral information, and social data.")
    "User" ["Node"]
    [ Field (Some "Globally unique identifier for a Backpack user.")
        "id" [] (NonNull (Named "ID")) [];
      Field (Some "The image link for the avatar of the user.")
        "avatar" [] (NonNull (Named "String")) [];
      Field (Some "The timestamp of the creation of the user.")
        "createdAt" [] (NonNull (Named "String")) [];
      Field (Some "A grouping object of the friends and friend request data for the user.")
        "friendship" [] (Named "Friendship")
        [ At "cacheControl" [("inheritMaxAge", BooleanValue true)] ];
      Field (Some "The Relay connection for the notifications received by the user.")
        "notifications"
        [ Input None "filters" (Named "NotificationFiltersInput") ]
        (Named "NotificationConnection")
        [ At "cacheControl" [("maxAge", IntValue 60); ("scope", EnumValue "PRIVATE")] ];
      Field (Some "The user's unique UUID from the database.")
        "userId" [] (NonNull (Named "String")) [];
      Field (Some "The user's Backpack username.")
        "username" [] (NonNull (Named "String")) [];
      Field (Some "Get a single wallet object for the argued public key address.")
        "wallet"
        [ Input None "address" (NonNull (Named "String")) ]
        (Named "Wallet") [];
      Field (Some "The Relay connection for the wallet's and their data that are registered to the user.")
        "wallets"
        [ Input None "filters" (Named "WalletFiltersInput") ]
        (Named "WalletConnection")
        [ At "cacheControl" [("maxAge", IntValue 60)] ] ].

Definition Wallet : ObjectType :=
  Object
    (Some "Wallet definition to provide data about all assets owned by an address.")
    "Wallet" ["Node"]
    [ Field (Some "Globally unique identifier for a specific wallet on a blockchain.")
        "id" [] (NonNull (Named "ID")) [];
      Field (Some "The public key address of the wallet.")
        "address" [] (NonNull (Named "String")) [];
      Field (Some "The blockchain enum variant that the wallet is associated with.")
        "chainId" [] (NonNull (Named "ChainID")) [];
      Field (Some "The timestamp that the wallet was imported or registered to the Backpack user.")
        "createdAt" [] (NonNull (Named "String")) [];
      Field (Some "The detailed and aggregate balance data for the wallet.")
        "balances"
        [ Input None "filters" (Named "BalanceFiltersInput") ]
        (Named "Balances")
        [ At "cacheControl" [("maxAge", IntValue 60)] ];
      Field (Some "Flag to indicate whether it is the user's primary wallet for the designated blockchain.")
        "isPrimary" [] (NonNull (Named "Boolean")) [];
      Field (Some "The Relay connection for all of the NFTs owned by the wallet.")
        "nfts"
        [ Input None "filters" (Named "NftFiltersInput") ]
        (Named "NftConnection")
        [ At "cacheControl" [("maxAge", IntValue 60)] ];
      Field (Some "The Relay connection for all transactions initiated or associated with the wallet.")
        "transactions"
        [ Input None "filters" (Named "TransactionFiltersInput") ]
        (Named "TransactionConnection")
        [ At "cacheControl" [("maxAge", IntValue 30)] ] ].

Definition WalletConnection : ObjectType :=
  Object
    (Some "Relay connection specification for `Wallet` edges.")
    "WalletConnection" []
    [ Field None
        "edges" [] (NonNull (ListOf (NonNull (Named "WalletEdge")))) [];
      Field None
        "pageInfo" [] (NonNull (Named "PageInfo")) [] ].

Definition WalletEdge : ObjectType :=
  Object
    (Some "Relay edge specification for `Wallet` nodes.")
    "WalletEdge" []
    [ Field None
        "cursor" [] (NonNull (Named "String")) [];
      Field None
        "node" [] (NonNull (Named "Wallet")) [] ].

(** The document: its definitions in source order. *)
Definition document : list TypeSystemDefinition :=
  [ schema;
    JSONObject;
    cacheControl;
    ObjectTypeDefinition Mutation;
    ObjectTypeDefinition Query;
    CacheControlScope;
    ChainID;
    FriendRequestType;
    SortDirection;
    BalanceFiltersInput;
    NftFiltersInput;
    NotificationFiltersInput;
    TokenListEntryFiltersInput;
    TransactionFiltersInput;
    WalletFiltersInput;
    Node;
    ObjectTypeDefinition PageInfo;
    ObjectTypeDefinition Balances;
    ObjectTypeDefinition BalanceAggregate;
    ObjectTypeDefinition Collection;
    ObjectTypeDefinition Friend;
    ObjectTypeDefinition FriendRequest;
    ObjectTypeDefinition Friendship;
    ObjectTypeDefinition Listing;
    ObjectTypeDefinition MarketData;
    ObjectTypeDefinition Nft;
    ObjectTypeDefinition NftAttribute;
    ObjectTypeDefinition NftConnection;
    ObjectTypeDefinition NftEdge;
    ObjectTypeDefinition Notification;
    ObjectTypeDefinition NotificationApplicationData;
    ObjectTypeDefinition NotificationConnection;
    ObjectTypeDefinition NotificationEdge;
    ObjectTypeDefinition TokenBalance;
    ObjectTypeDefinition TokenBalanceConnection;
    ObjectTypeDefinition TokenBalanceEdge;
    ObjectTypeDefinition TokenListEntry;
    ObjectTypeDefinition Transaction;
    ObjectTypeDefinition TransactionConnection;
    ObjectTypeDefinition TransactionEdge;
    ObjectTypeDefinition User;
    ObjectTypeDefinition Wallet;
    ObjectTypeDefinition WalletConnection;
    ObjectTypeDefinition WalletEdge ].

(** ** Reading the document *)

(** The object types a document defines, in order. *)
Definition object_types (doc : list TypeSystemDefinition) : list ObjectType :=
  omap (λ d, match d with ObjectTypeDefinition o => Some o | _ => None end) doc.

(** The object type of a given name. *)
Definition object_type (doc : list TypeSystemDefinition) (n : string)
  : option ObjectType :=
  head (filter (λ o, o_name o = n) (object_types doc)).

(** The fields an interface of a given name declares. *)
Definition interface_fields (doc : list TypeSystemDefinition) (n : string)
  : list FieldDefinition :=
  mjoin (omap (λ d, match d with
                    | InterfaceTypeDefinition _ m fs =>
                        if decide (m = n) then Some fs else None
                    | _ => None
                    end) doc).

(** The values of the enum types of a given name. *)
Definition enum_values (doc : list TypeSystemDefinition) (n : string)
  : list (list string) :=
  omap (λ d, match d with
             | EnumTypeDefinition _ m vs =>
                 if decide (m = n) then Some vs else None
             | _ => None
             end) doc.

(** The directive definitions of a given name: arguments and locations. *)
Definition directive_definitions (doc : list TypeSystemDefinition) (n : string)
  : list (list InputValueDefinition * list DirectiveLocation) :=
  omap (λ d, match d with
             | DirectiveDefinition _ m args locs =>
                 if decide (m = n) then Some (args, locs) else None
             | _ => None
             end) doc.

(** The root operation types the [schema] block binds. *)
Definition root_types (doc : list TypeSystemDefinition)
  : list (string * string) :=
  mjoin (omap (λ d, match d with
                    | SchemaDefinition roots => Some roots
                    | _ => None
                    end) doc).

(** The fields of a given name among [fs]. *)
Definition fields_named (n : string) (fs : list FieldDefinition)
  : list FieldDefinition :=
  filter (λ f, f_name f = n) fs.

(** [o] exposes [n: t]: exactly one of its fields is named [n], and its type
    is [t]. *)
Definition exposes (o : ObjectType) (n : string) (t : TypeRef) : Prop :=
  f_type <$> fields_named n (o_fields o) = [t].

#[export] Instance exposes_dec o n t : Decision (exposes o n t).
Proof. unfold exposes. apply _. Defined.

(** [o] declares [implements i]. *)
Definition implements (o : ObjectType) (i : string) : Prop :=
  i ∈ o_interfaces o.

#[export] Instance implements_dec o i : Decision (implements o i).
Proof. unfold implements. apply _. Defined.

(** [o] provides a field of an interface: it exposes a field of that name
    with the same arguments and the same type. *)
Definition provides (o : ObjectType) (g : FieldDefinition) : Prop :=
  (λ f, (f_arguments f, f_type f)) <$> fields_named (f_name g) (o_fields o)
  = [(f_arguments g, f_type g)].

#[export] Instance provides_dec o g : Decision (provides o g).
Proof. unfold provides. apply _. Defined.

(** A field carries the directive [@n]. *)
Definition has_directive (n : string) (f : FieldDefinition) : Prop :=
  n ∈ d_name <$> f_directives f.

#[export] Instance has_directive_dec n f : Decision (has_directive n f).
Proof. unfold has_directive. apply _. Defined.

(** The named type a type reference wraps. *)
Fixpoint named_type (t : TypeRef) : string :=
  match t with
  | Named n => n
  | ListOf t => named_type t
  | NonNull t => named_type t
  end.

(** [s] ends with [suf]. *)
Definition ends_with (suf s : string) : Prop :=
  String.list_ascii_of_string suf `suffix_of` String.list_ascii_of_string s.

#[export] Instance ends_with_dec suf s : Decision (ends_with suf s).
Proof. unfold ends_with. apply _. Defined.

(** The Connection types of a document: its object types named
    [...Connection]. *)
Definition connection_types (doc : list TypeSystemDefinition)
  : list ObjectType :=
  filter (λ o, ends_with "Connection" (o_name o)) (object_types doc).

End Schema.

(* ===================================================================== *)
(** * Reading the schema as a type system *)
(* ===================================================================== *)

(** What the document's definitions say about each other: which names are
    defined and as what, which names each definition refers to, and which
    directives its fields apply. *)
Module Validation.
Import Schema.

(** The kinds of named types. *)
Inductive Kind : Type := KScalar | KObject | KInterface | KEnum | KInputObject.

#[export] Instance Kind_eq_dec : EqDecision Kind.
Proof. solve_decision. Defined.

(** The scalars GraphQL defines without a declaration. *)
Definition built_in_scalars : list string :=
  [ "Int"; "Float"; "String"; "Boolean"; "ID" ].

(** The type a definition defines, with its kind; the [schema] block and a
    directive definition define none. *)
Definition defined_type (d : TypeSystemDefinition) : option (string * Kind) :=
  match d with
  | SchemaDefinition _ => None
  | ScalarTypeDefinition _ n => Some (n, KScalar)
  | DirectiveDefinition _ _ _ _ => None
  | ObjectTypeDefinition o => Some (o_name o, KObject)
  | InterfaceTypeDefinition _ n _ => Some (n, KInterface)
  | EnumTypeDefinition _ n _ => Some (n, KEnum)
  | InputObjectTypeDefinition _ n _ => Some (n, KInputObject)
  end.

(** Every type name a document can use, with its kind. *)
Definition type_table (doc : list TypeSystemDefinition) : list (string * Kind) :=
  ((λ n, (n, KScalar)) <$> built_in_scalars) ++ omap defined_type doc.

(** The kinds under which a name is known: one element when it is defined
    once, none when it is not defined. *)
Definition kinds_of (doc : list TypeSystemDefinition) (n : string) : list Kind :=
  (filter (λ p, p.1 = n) (type_table doc)).*2.

(** [n] names exactly one type, and it may be the type of a field. *)
Definition is_output_type (doc : list TypeSystemDefinition) (n : string) : Prop :=
  kinds_of doc n ∈ [ [KScalar]; [KObject]; [KInterface]; [KEnum] ].

(** [n] names exactly one type, and it may be the type of an argument or of
    an input field. *)
Definition is_input_type (doc : list TypeSystemDefinition) (n : string) : Prop :=
  kinds_of doc n ∈ [ [KScalar]; [KEnum]; [KInputObject] ].

#[export] Instance is_output_type_dec doc n : Decision (is_output_type doc n).
Proof. unfold is_output_type. apply _. Defined.
#[export] Instance is_input_type_dec doc n : Decision (is_input_type doc n).
Proof. unfold is_input_type. apply _. Defined.

(** The fields a definition declares. *)
Definition fields_of (d : TypeSystemDefinition) : list FieldDefinition :=
  match d with
  | ObjectTypeDefinition o => o_fields o
  | InterfaceTypeDefinition _ _ fs => fs
  | _ => []
  end.

(** The input fields an input object declares. *)
Definition input_fields_of (d : TypeSystemDefinition) : list InputValueDefinition :=
  match d with
  | InputObjectTypeDefinition _ _ fs => fs
  | _ => []
  end.

(** Every field of the document, with the name of the type that declares
    it. *)
Definition all_fields (doc : list TypeSystemDefinition)
  : list (string * FieldDefinition) :=
  doc ≫= λ d,
    match defined_type d with
    | Some (n, _) => (λ f, (n, f)) <$> fields_of d
    | None => []
    end.

(** Every argument of every field: declaring type, field name, argument. *)
Definition all_arguments (doc : list TypeSystemDefinition)
  : list (string * string * InputValueDefinition) :=
  all_fields doc ≫= λ nf, (λ a, (nf.1, f_name nf.2, a)) <$> f_arguments nf.2.

(** Every field of every input object, with the input object's name. *)
Definition all_input_fields (doc : list TypeSystemDefinition)
  : list (string * InputValueDefinition) :=
  doc ≫= λ d,
    match defined_type d with
    | Some (n, _) => (λ i, (n, i)) <$> input_fields_of d
    | None => []
    end.

(** Every directive a field applies: declaring type, field name,
    directive. *)
Definition applied_directives (doc : list TypeSystemDefinition)
  : list (string * string * Directive) :=
  all_fields doc ≫= λ nf, (λ x, (nf.1, f_name nf.2, x)) <$> f_directives nf.2.

(** The values a directive application passes under the name [k]. *)
Definition argument_values (k : string) (d : Directive) : list Value :=
  (filter (λ p, p.1 = k) (d_arguments d)).*2.

(** A constant is a value of a nullable named type: for [Int] an integer
    in the signed 32-bit range, for [Boolean] a boolean, for [String] a
    string, and for an enum one of the values the document lists for it. *)
Definition value_of_type (doc : list TypeSystemDefinition) (v : Value)
    (t : TypeRef) : Prop :=
  match t, v with
  | Named n, IntValue z => n = "Int" ∧ (- 2 ^ 31 ≤ z < 2 ^ 31)%Z
  | Named n, BooleanValue _ => n = "Boolean"
  | Named n, StringValue _ => n = "String"
  | Named n, EnumValue e => e ∈ mjoin (enum_values doc n)
  | _, _ => False
  end.

#[export] Instance value_of_type_dec doc v t : Decision (value_of_type doc v t).
Proof. unfold value_of_type. destruct t, v; apply _. Defined.

(** An argument of a directive application is declared by the definition's
    arguments [args], once, and its value has the declared type. *)
Definition argument_declared (doc : list TypeSystemDefinition)
    (args : list InputValueDefinition) (kv : string * Value) : Prop :=
  Exists (λ a, i_name a = kv.1 ∧ value_of_type doc kv.2 (i_type a)) args.

#[export] Instance argument_declared_dec doc args kv :
  Decision (argument_declared doc args kv).
Proof. unfold argument_declared. apply _. Defined.

(** A positive integer constant. *)
Definition positive_int (v : Value) : Prop :=
  match v with
  | IntValue n => (0 < n)%Z
  | _ => False
  end.

#[export] Instance positive_int_dec v : Decision (positive_int v).
Proof. destruct v; simpl; apply _. Defined.

(** The two shapes of a cache policy: an own maximum age, a positive integer,
    with no scope or the scope [PRIVATE]; or the parent's maximum age, with
    nothing else. *)
Definition declares_max_age (d : Directive) : Prop :=
  length (argument_values "maxAge" d) = 1
  ∧ Forall positive_int (argument_values "maxAge" d)
  ∧ argument_values "inheritMaxAge" d = []
  ∧ argument_values "scope" d ∈ [ []; [EnumValue "PRIVATE"] ].

Definition inherits_max_age (d : Directive) : Prop :=
  argument_values "inheritMaxAge" d = [BooleanValue true]
  ∧ argument_values "maxAge" d = []
  ∧ argument_values "scope" d = [].

#[export] Instance declares_max_age_dec d : Decision (declares_max_age d).
Proof. unfold declares_max_age. apply _. Defined.
#[export] Instance inherits_max_age_dec d : Decision (inherits_max_age d).
Proof. unfold inherits_max_age. apply _. Defined.

(** The values an enum lists. *)
Definition values_of (d : TypeSystemDefinition) : list string :=
  match d with
  | EnumTypeDefinition _ _ vs => vs
  | _ => []
  end.

(** A type reference that admits [null]: anything but [T!]. *)
Definition nullable (t : TypeRef) : Prop :=
  match t with
  | NonNull _ => False
  | _ => True
  end.

#[export] Instance nullable_dec t : Decision (nullable t).
Proof. destruct t; simpl; apply _. Defined.

(** The type names a field refers to: its type and its arguments' types. *)
Definition field_references (f : FieldDefinition) : list string :=
  named_type (f_type f) :: ((λ a, named_type (i_type a)) <$> f_arguments f).

(** The type names a definition refers to. *)
Definition references (d : TypeSystemDefinition) : list string :=
  match d with
  | SchemaDefinition roots => roots.*2
  | ScalarTypeDefinition _ _ => []
  | DirectiveDefinition _ _ args _ => (λ a, named_type (i_type a)) <$> args
  | ObjectTypeDefinition o => o_interfaces o ++ (o_fields o ≫= field_references)
  | InterfaceTypeDefinition _ _ fs => fs ≫= field_references
  | EnumTypeDefinition _ _ _ => []
  | InputObjectTypeDefinition _ _ fs => (λ a, named_type (i_type a)) <$> fs
  end.

(** A type name is in use when the [schema] block or a directive definition
    refers to it, or when the definition of a type in use does. *)
Inductive in_use (doc : list TypeSystemDefinition) : string → Prop :=
  | in_use_entry d n :
      d ∈ doc → defined_type d = None → n ∈ references d → in_use doc n
  | in_use_step d m k n :
      in_use doc m → d ∈ doc → defined_type d = Some (m, k) →
      n ∈ references d → in_use doc n.

(** The names the [schema] block and the directive definitions refer to. *)
Definition entry_points (doc : list TypeSystemDefinition) : list string :=
  doc ≫= λ d, match defined_type d with None => references d | Some _ => [] end.

(** The names the definitions of [m] refer to. *)
Definition successors (doc : list TypeSystemDefinition) (m : string)
  : list string :=
  doc ≫= λ d,
    match defined_type d with
    | Some (m', _) => if decide (m' = m) then references d else []
    | None => []
    end.

(** [fuel] rounds of following references from the names in [seen]. *)
Fixpoint follow (doc : list TypeSystemDefinition) (fuel : nat)
    (seen : list string) : list string :=
  match fuel with
  | O => seen
  | S fuel => follow doc fuel (remove_dups (seen ++ (seen ≫= successors doc)))
  end.

End Validation.

(* ===================================================================== *)
(** * Properties of the feature-gate evaluator *)
(* ===================================================================== *)

Module FeatureGatesFacts.
Import FeatureGates.

Lemma FEATURE_GATES_unfold a :
  FEATURE_GATES a =
    <["BARTER_ENABLED" := VBool false]>
    (<["STICKER_ENABLED" := VBool true]>
    (<["DROPZONE_ENABLED" :=
         Boolean (logical_and (binding (userId a))
                    (includes (dropzoneUsers a) (binding (userId a))))]>
    (<["SWAP_FEES_ENABLED" := VBool false]>
    (<["PRIMARY_PUBKEY_ENABLED" := VBool true]>
    (<["STRIPE_ENABLED" := VBool true]> ∅))))).
Proof. reflexivity. Qed.

Lemma lookup_DROPZONE_ENABLED a :
  FEATURE_GATES a !! "DROPZONE_ENABLED" =
    Some (Boolean (logical_and (binding (userId a))
                     (includes (dropzoneUsers a) (binding (userId a))))).
Proof. rewrite FEATURE_GATES_unfold. by simplify_map_eq. Qed.

(** Membership of a string among the array's elements, seen through the
    injection into values. *)
Lemma elem_of_VString (s : string) (xs : list string) :
  VString s ∈ VString <$> xs ↔ s ∈ xs.
Proof.
  rewrite list_elem_of_fmap. split.
  - intros (y & Heq & Hy). by injection Heq as ->.
  - intros Hs. by exists s.
Qed.

(** The gate expression is truthy exactly for a non-empty user id that is an
    element of the array. *)
Lemma gate_truthy (u : option string) (xs : list string) :
  truthy (logical_and (binding u) (includes xs (binding u))) = true
  ↔ ∃ s, u = Some s ∧ s ≠ "" ∧ s ∈ xs.
Proof.
  destruct u as [s|]; simpl.
  - unfold logical_and; simpl. destruct (decide (s = "")) as [->|Hne].
    + simpl. split; [done | intros (s & [= <-] & Hne & _); done].
    + rewrite (bool_decide_eq_false_2 _ Hne). simpl.
      rewrite bool_decide_eq_true, elem_of_VString. split.
      * intros Hin. by exists s.
      * by intros (s' & [= <-] & _ & Hin).
  - split; [done | by intros (s & Hs & _)].
Qed.

(** The keys of the returned object. *)
Lemma dom_FEATURE_GATES (a : Args) :
  dom (FEATURE_GATES a) = list_to_set FEATURE_GATES_MAP.
Proof.
  rewrite FEATURE_GATES_unfold, !dom_insert_L, dom_empty_L.
  unfold FEATURE_GATES_MAP. simpl. set_solver.
Qed.

Lemma NoDup_FEATURE_GATES_MAP : NoDup FEATURE_GATES_MAP.
Proof. apply (bool_decide_unpack _). by vm_compute. Qed.

(** Every key of the map is looked up to a boolean. *)
Lemma flags_boolean (a : Args) :
  Forall (λ k, ∃ b, FEATURE_GATES a !! k = Some (VBool b)) FEATURE_GATES_MAP.
Proof.
  rewrite FEATURE_GATES_unfold. unfold Boolean.
  repeat apply Forall_cons_2; [..| apply Forall_nil_2];
    eexists; reflexivity.
Qed.

(** ** The claims about [FEATURE_GATES] *)

(** C1, as the spec words it, fails on the empty string: with [userId = ""]
    and the cohort [[""]] the user id is defined and a member of the cohort,
    and [DROPZONE_ENABLED] is [false]. *)
Lemma C1_defined_member_counterexample :
  ¬ (FEATURE_GATES (mkArgs [""] (Some "")) !! "DROPZONE_ENABLED"
       = Some (VBool true)
     ↔ ∃ u, userId (mkArgs [""] (Some "")) = Some u
            ∧ u ∈ dropzoneUsers (mkArgs [""] (Some ""))).
Proof.
  intros [_ H]. assert (Hm : ∃ u, Some "" = Some u ∧ u ∈ [""]).
  { exists "". split; [done | apply list_elem_of_here]. }
  specialize (H Hm). vm_compute in H. discriminate H.
Qed.

(** C1 (amended): for every cohort list and every userId, [DROPZONE_ENABLED]
    is a boolean, and it is [true] if and only if userId is defined, is not
    the empty string, and is a member of the cohort list.  In particular
    userId "u1" with cohort {"u1","u2"} gives [true], userId "u3" with the
    same cohort gives [false], and an undefined userId gives [false]. *)
Theorem C1_dropzone_enabled :
  (∀ a : Args, ∃ b : bool,
      FEATURE_GATES a !! "DROPZONE_ENABLED" = Some (VBool b)
      ∧ (b = true ↔ ∃ u, userId a = Some u ∧ u ≠ "" ∧ u ∈ dropzoneUsers a))
  ∧ FEATURE_GATES (mkArgs ["u1"; "u2"] (Some "u1")) !! "DROPZONE_ENABLED"
      = Some (VBool true)
  ∧ FEATURE_GATES (mkArgs ["u1"; "u2"] (Some "u3")) !! "DROPZONE_ENABLED"
      = Some (VBool false)
  ∧ (∀ cohort : list string,
      FEATURE_GATES (mkArgs cohort None) !! "DROPZONE_ENABLED"
      = Some (VBool false)).
Proof.
  split; [| split; [| split]].
  - intros a. eexists. split; [apply lookup_DROPZONE_ENABLED |].
    apply gate_truthy.
  - by vm_compute.
  - by vm_compute.
  - intros cohort. by rewrite lookup_DROPZONE_ENABLED.
Qed.

(** C2: for every input the output is total over the known feature universe:
    its literal defines each of the six features exactly once and nothing
    else, every one of them is a boolean property of the returned object, and
    the object has no other key. *)
Theorem C2_total_over_feature_universe (a : Args) :
  (FEATURE_GATES_literal a).*1 = FEATURE_GATES_MAP
  ∧ NoDup (FEATURE_GATES_literal a).*1
  ∧ dom (FEATURE_GATES a) = list_to_set FEATURE_GATES_MAP
  ∧ size (FEATURE_GATES a) = 6
  ∧ satisfies FEATURE_GATES_MAP (FEATURE_GATES a).
Proof.
  pose proof (dom_FEATURE_GATES a) as Hdom.
  pose proof NoDup_FEATURE_GATES_MAP as Hnd.
  split; [done |]. split; [exact Hnd |]. split; [exact Hdom |]. split.
  - rewrite <- size_dom, Hdom, size_list_to_set by exact Hnd. done.
  - split.
    + intros k Hk. revert k Hk. apply Forall_forall, flags_boolean.
    + intros k Hk. rewrite Hdom in Hk. by apply elem_of_list_to_set in Hk.
Qed.

(** C3: for every userId and every cohort list, [STRIPE_ENABLED],
    [PRIMARY_PUBKEY_ENABLED] and [STICKER_ENABLED] are [true] and
    [SWAP_FEES_ENABLED] and [BARTER_ENABLED] are [false]. *)
Theorem C3_static_flags (cohort : list string) (user : option string) :
  FEATURE_GATES (mkArgs cohort user) !! "STRIPE_ENABLED" = Some (VBool true)
  ∧ FEATURE_GATES (mkArgs cohort user) !! "PRIMARY_PUBKEY_ENABLED"
      = Some (VBool true)
  ∧ FEATURE_GATES (mkArgs cohort user) !! "SWAP_FEES_ENABLED"
      = Some (VBool false)
  ∧ FEATURE_GATES (mkArgs cohort user) !! "STICKER_ENABLED"
      = Some (VBool true)
  ∧ FEATURE_GATES (mkArgs cohort user) !! "BARTER_ENABLED"
      = Some (VBool false).
Proof. rewrite FEATURE_GATES_unfold. repeat split; by simplify_map_eq. Qed.

(** C9: when userId is the empty string, [DROPZONE_ENABLED] is [false] for
    every cohort list, the ones that contain the empty string included. *)
Theorem C9_empty_user_id (cohort : list string) :
  FEATURE_GATES (mkArgs cohort (Some "")) !! "DROPZONE_ENABLED"
  = Some (VBool false).
Proof. by rewrite lookup_DROPZONE_ENABLED. Qed.

End FeatureGatesFacts.

(* ===================================================================== *)
(** * The evaluator's effects *)
(* ===================================================================== *)

Module PurityFacts.
Import FeatureGates Runtime FeatureGatesFacts.

Section Run.
Context {E : Type}.

Lemma define_property_run (w : World E) (o : loc) (k : string) (v : value)
    (props : gmap string value) :
  heap w !! o = Some (Object props) →
  define_property o k v w
  = (Returned (), mkWorld (<[o := Object (<[k := v]> props)]> (heap w))
                    (ambient w)).
Proof. unfold define_property. by intros ->. Qed.

(** The gate expression, run: it ends normally with the value of the pure
    expression and leaves the world as it was, provided the reference holds
    an array. *)
Lemma gate_run (w : World E) (r : loc) (u : option string) (c : list string) :
  heap w !! r = Some (Array c) →
  and_then (binding u) (call_includes r (binding u)) w
  = (Returned (logical_and (binding u) (includes c (binding u))), w).
Proof.
  intros Hr. unfold and_then, logical_and, call_includes.
  destruct (truthy (binding u)); [by rewrite Hr | reflexivity].
Qed.

(** One call: it returns the reference the heap did not use, where the
    object of the pure evaluator now is; nothing else in the world has
    changed. *)
Lemma FEATURE_GATES_run_spec (w : World E) (r : loc) (u : option string)
    (c : list string) :
  heap w !! r = Some (Array c) →
  FEATURE_GATES_run r u w
  = (Returned (fresh (dom (heap w))),
     mkWorld (<[fresh (dom (heap w)) := Object (FEATURE_GATES (mkArgs c u))]>
                (heap w))
             (ambient w)).
Proof.
  intros Hr. set (o := fresh (dom (heap w))).
  assert (Hor : o ≠ r).
  { intros Heq. apply (is_fresh (dom (heap w))), elem_of_dom.
    fold o. rewrite Heq, Hr. by eexists. }
  unfold FEATURE_GATES_run, mbind, JS_bind, new_object. cbn [heap ambient].
  fold o.
  do 3 (erewrite define_property_run by apply lookup_insert_eq;
        cbn [heap ambient]; rewrite insert_insert_eq).
  erewrite gate_run; [| cbn [heap]; by rewrite lookup_insert_ne].
  do 3 (erewrite define_property_run by apply lookup_insert_eq;
        cbn [heap ambient]; rewrite insert_insert_eq).
  unfold mret, JS_ret. by rewrite FEATURE_GATES_unfold.
Qed.

End Run.

(** C4: take two invocations, in any two worlds, each given a reference to
    an array holding the same cohort list, and the same userId.  Both return
    normally, and the objects they return hold the same flag set, the one
    the cohort list and the userId determine.  Each invocation leaves the
    world as it found it but for the object it returns, which is at a
    reference the heap did not use: no cell of the heap is changed and the
    rest of the state is exactly what it was. *)
Theorem C4_pure_and_deterministic {E : Type} (w1 w2 : World E) (r1 r2 : loc)
    (userId : option string) (cohort : list string) :
  heap w1 !! r1 = Some (Array cohort) →
  heap w2 !! r2 = Some (Array cohort) →
  ∃ (o1 o2 : loc) (flags : gmap string value),
    flags = FEATURE_GATES (mkArgs cohort userId)
    ∧ heap w1 !! o1 = None
    ∧ heap w2 !! o2 = None
    ∧ FEATURE_GATES_run r1 userId w1
      = (Returned o1, mkWorld (<[o1 := Object flags]> (heap w1)) (ambient w1))
    ∧ FEATURE_GATES_run r2 userId w2
      = (Returned o2, mkWorld (<[o2 := Object flags]> (heap w2)) (ambient w2)).
Proof.
  intros H1 H2.
  exists (fresh (dom (heap w1))), (fresh (dom (heap w2))),
         (FEATURE_GATES (mkArgs cohort userId)).
  split; [done |].
  split; [apply not_elem_of_dom, is_fresh |].
  split; [apply not_elem_of_dom, is_fresh |].
  split; by apply FEATURE_GATES_run_spec.
Qed.

Lemma C4_pure_and_deterministic_witness :
  ∃ (o1 o2 : loc) (flags : gmap string value),
    flags = FEATURE_GATES (mkArgs ["u1"; "u2"] (Some "u1"))
    ∧ heap (mkWorld {[ 1%positive := Array ["u1"; "u2"] ]} ["started"]) !! o1
      = None
    ∧ heap (mkWorld {[ 1%positive := Object {[ "seen" := VBool true ]};
                       5%positive := Array ["u1"; "u2"] ]} ["resumed"]) !! o2
      = None
    ∧ FEATURE_GATES_run 1%positive (Some "u1")
        (mkWorld {[ 1%positive := Array ["u1"; "u2"] ]} ["started"])
      = (Returned o1,
         mkWorld (<[o1 := Object flags]> {[ 1%positive := Array ["u1"; "u2"] ]})
           ["started"])
    ∧ FEATURE_GATES_run 5%positive (Some "u1")
        (mkWorld {[ 1%positive := Object {[ "seen" := VBool true ]};
                    5%positive := Array ["u1"; "u2"] ]} ["resumed"])
      = (Returned o2,
         mkWorld (<[o2 := Object flags]>
                    {[ 1%positive := Object {[ "seen" := VBool true ]};
                       5%positive := Array ["u1"; "u2"] ]})
           ["resumed"]).
Proof.
  refine (C4_pure_and_deterministic
            (mkWorld {[ 1%positive := Array ["u1"; "u2"] ]} ["started"])
            (mkWorld {[ 1%positive := Object {[ "seen" := VBool true ]};
                        5%positive := Array ["u1"; "u2"] ]} ["resumed"])
            1%positive 5%positive (Some "u1") ["u1"; "u2"] _ _);
    vm_compute; reflexivity.
Defined.

(** The run evaluates: in a heap whose only cell is the cohort array at
    reference 1, the call returns reference 2. *)
Example FEATURE_GATES_run_evaluates :
  FEATURE_GATES_run 1%positive (Some "u3")
    (mkWorld {[ 1%positive := Array ["u1"; "u2"] ]} ["started"])
  = (Returned 2%positive,
     mkWorld {[ 1%positive := Array ["u1"; "u2"];
                2%positive :=
                  Object {[ "STRIPE_ENABLED" := VBool true;
                            "PRIMARY_PUBKEY_ENABLED" := VBool true;
                            "SWAP_FEES_ENABLED" := VBool false;
                            "DROPZONE_ENABLED" := VBool false;
                            "STICKER_ENABLED" := VBool true;
                            "BARTER_ENABLED" := VBool false ]} ]}
       ["started"]).
Proof. vm_compute. reflexivity. Qed.

End PurityFacts.

(* ===================================================================== *)
(** * Properties of the schema document *)
(* ===================================================================== *)

Module SchemaFacts.
Import Schema.

(** Settles a decidable statement about the document by evaluating its
    decision procedure. *)
Ltac by_evaluation := apply (bool_decide_unpack _); vm_compute; reflexivity.

(** ** Reading lemmas *)

Lemma list_ascii_of_string_app (s t : string) :
  String.list_ascii_of_string (s +:+ t)
  = (String.list_ascii_of_string s ++ String.list_ascii_of_string t)%list.
Proof. induction s as [|c s IH]; simpl; [done | by rewrite IH]. Qed.

(** [ends_with] is what its name says. *)
Lemma ends_with_app (suf s : string) :
  ends_with suf s ↔ ∃ t, s = t +:+ suf.
Proof.
  unfold ends_with. split.
  - intros [k Hk]. exists (String.string_of_list_ascii k).
    rewrite <- (String.string_of_list_ascii_of_string s), Hk.
    rewrite <- (String.list_ascii_of_string_of_list_ascii k) at 1.
    rewrite <- list_ascii_of_string_app.
    by rewrite String.string_of_list_ascii_of_string.
  - intros [t ->]. exists (String.list_ascii_of_string t).
    apply list_ascii_of_string_app.
Qed.

Lemma elem_of_object_types (doc : list TypeSystemDefinition) (o : ObjectType) :
  o ∈ object_types doc ↔ ObjectTypeDefinition o ∈ doc.
Proof.
  unfold object_types. rewrite list_elem_of_omap. split.
  - intros (d & Hd & Ho). destruct d; try discriminate Ho.
    by injection Ho as ->.
  - intros Ho. by exists (ObjectTypeDefinition o).
Qed.

(** The Connection types of a document are its object types whose name is
    some [T] followed by [Connection]. *)
Lemma elem_of_connection_types (doc : list TypeSystemDefinition) (o : ObjectType) :
  o ∈ connection_types doc
  ↔ ObjectTypeDefinition o ∈ doc ∧ ∃ T, o_name o = T +:+ "Connection".
Proof.
  unfold connection_types.
  rewrite list_elem_of_filter, elem_of_object_types, ends_with_app. tauto.
Qed.

(** ** The document's tables *)

Lemma object_types_document :
  object_types document =
    [ Mutation; Query; PageInfo; Balances; BalanceAggregate; Collection;
      Friend; FriendRequest; Friendship; Listing; MarketData; Nft;
      NftAttribute; NftConnection; NftEdge; Notification;
      NotificationApplicationData; NotificationConnection; NotificationEdge;
      TokenBalance; TokenBalanceConnection; TokenBalanceEdge; TokenListEntry;
      Transaction; TransactionConnection; TransactionEdge; User; Wallet;
      WalletConnection; WalletEdge ].
Proof. reflexivity. Qed.

Lemma connection_types_document :
  connection_types document =
    [ NftConnection; NotificationConnection; TokenBalanceConnection;
      TransactionConnection; WalletConnection ].
Proof. by vm_compute. Qed.

(** The object types that declare [implements Node]. *)
Lemma Node_implementers :
  filter (λ o, implements o "Node") (object_types document) =
    [ Balances; BalanceAggregate; Collection; Friend; FriendRequest; Listing;
      MarketData; Nft; Notification; NotificationApplicationData;
      TokenBalance; TokenListEntry; Transaction; User; Wallet ].
Proof. by vm_compute. Qed.

(** The [Node] interface declares the one field [id: ID!]. *)
Lemma Node_interface :
  interface_fields document "Node" =
    [ Field (Some "Globally unique identifier.")
        "id" [] (NonNull (Named "ID")) [] ].
Proof. by vm_compute. Qed.

(** Each object type name is defined once, so [object_type] finds the
    definition the document gives. *)
Lemma object_names_NoDup : NoDup (o_name <$> object_types document).
Proof. apply (bool_decide_unpack _). by vm_compute. Qed.

(** ** The claims about the schema *)

(** C5: every object type of the document declared with [implements Node]
    exposes exactly one field [id], of the non-null type [ID!], and provides
    each field of the [Node] interface with its arguments and type. *)
Theorem C5_Node_types_expose_id (o : ObjectType) :
  ObjectTypeDefinition o ∈ document →
  implements o "Node" →
  exposes o "id" (NonNull (Named "ID"))
  ∧ ∀ g, g ∈ interface_fields document "Node" → provides o g.
Proof.
  intros Ho Hi.
  assert (Hin : o ∈ filter (λ o, implements o "Node") (object_types document)).
  { apply list_elem_of_filter. split; [done | by apply elem_of_object_types]. }
  clear Ho Hi. revert o Hin. apply Forall_forall.
  rewrite Node_implementers, Node_interface.
  repeat apply Forall_cons_2; [.. | apply Forall_nil_2];
    (split; [by vm_compute | intros g ->%list_elem_of_singleton; by vm_compute]).
Qed.

Lemma C5_Node_types_expose_id_User :
  exposes User "id" (NonNull (Named "ID"))
  ∧ ∀ g, g ∈ interface_fields document "Node" → provides User g.
Proof. apply C5_Node_types_expose_id; by_evaluation. Defined.

(** C6: the Connection types of the document are TokenBalanceConnection,
    NftConnection, TransactionConnection, NotificationConnection and
    WalletConnection; each, named [T]Connection, exposes
    [edges: [TEdge!]!] and [pageInfo: PageInfo!], and the object type
    [T]Edge exposes [cursor: String!] and [node: T!], where [T] is an object
    type of the document. *)
Theorem C6_connections_and_edges :
  o_name <$> connection_types document
    ≡ₚ [ "TokenBalanceConnection"; "NftConnection"; "TransactionConnection";
         "NotificationConnection"; "WalletConnection" ]
  ∧ ∀ c, c ∈ connection_types document →
      ∃ T e n,
        o_name c = T +:+ "Connection"
        ∧ exposes c "edges" (NonNull (ListOf (NonNull (Named (T +:+ "Edge")))))
        ∧ exposes c "pageInfo" (NonNull (Named "PageInfo"))
        ∧ object_type document (T +:+ "Edge") = Some e
        ∧ exposes e "cursor" (NonNull (Named "String"))
        ∧ exposes e "node" (NonNull (Named T))
        ∧ object_type document T = Some n.
Proof.
  rewrite connection_types_document. split.
  - by_evaluation.
  - intros c Hc.
    repeat (apply elem_of_cons in Hc as [-> | Hc]);
      [ exists "Nft", NftEdge, Nft
      | exists "Notification", NotificationEdge, Notification
      | exists "TokenBalance", TokenBalanceEdge, TokenBalance
      | exists "Transaction", TransactionEdge, Transaction
      | exists "Wallet", WalletEdge, Wallet
      | by apply elem_of_nil in Hc ];
      repeat split; by vm_compute.
Qed.

(** C7: the document binds the query root to [Query] and the mutation root
    to [Mutation]; [Query] has exactly the fields tokenList, user and wallet,
    the last one taking a chain id and an address and the only one marked
    deprecated; [Mutation] has exactly authenticate, deauthenticate,
    importPublicKey and sendFriendRequest; and the directive
    [@cacheControl(maxAge, scope, inheritMaxAge)] is defined on field
    definitions, objects, interfaces and unions. *)
Theorem C7_schema_surface :
  root_types document = [ ("mutation", "Mutation"); ("query", "Query") ]
  ∧ object_type document "Query" = Some Query
  ∧ f_name <$> o_fields Query = [ "tokenList"; "user"; "wallet" ]
  ∧ (λ f, (f_arguments f, f_type f))
      <$> fields_named "wallet" (o_fields Query)
    = [ ([ Input None "chainId" (NonNull (Named "ChainID"));
           Input None "address" (NonNull (Named "String")) ],
         Named "Wallet") ]
  ∧ f_name <$> filter (has_directive "deprecated") (o_fields Query)
    = [ "wallet" ]
  ∧ object_type document "Mutation" = Some Mutation
  ∧ f_name <$> o_fields Mutation
    = [ "authenticate"; "deauthenticate"; "importPublicKey";
        "sendFriendRequest" ]
  ∧ directive_definitions document "cacheControl"
    = [ ([ Input None "maxAge" (Named "Int");
           Input None "scope" (Named "CacheControlScope");
           Input None "inheritMaxAge" (Named "Boolean") ],
         [ FIELD_DEFINITION; OBJECT; INTERFACE; UNION ]) ].
Proof. repeat split; by vm_compute. Qed.

(** C8: [ChainID] is defined once, as the enum of exactly ETHEREUM and
    SOLANA, and [Wallet] exposes the non-null [chainId: ChainID!], its only
    field of that enum's type. *)
Theorem C8_ChainID_closed_and_carried :
  enum_values document "ChainID" = [ [ "ETHEREUM"; "SOLANA" ] ]
  ∧ object_type document "Wallet" = Some Wallet
  ∧ exposes Wallet "chainId" (NonNull (Named "ChainID"))
  ∧ f_name <$> filter (λ f, named_type (f_type f) = "ChainID") (o_fields Wallet)
    = [ "chainId" ].
Proof. repeat split; by vm_compute. Qed.

(** C10: NotificationConnection has the fields lastReadId, edges and
    pageInfo, where lastReadId is the nullable [Int] described as the
    database id of the user's last read notification; every other Connection
    type of the document has exactly the fields edges and pageInfo. *)
Theorem C10_lastReadId_only_on_notifications :
  f_name <$> o_fields NotificationConnection
    = [ "lastReadId"; "edges"; "pageInfo" ]
  ∧ fields_named "lastReadId" (o_fields NotificationConnection)
    = [ Field
          (Some "The database integer ID of the last read notification of the user.")
          "lastReadId" [] (Named "Int") [] ]
  ∧ o_name <$> filter (λ c, c ≠ NotificationConnection)
                 (connection_types document)
    = [ "NftConnection"; "TokenBalanceConnection"; "TransactionConnection";
        "WalletConnection" ]
  ∧ ∀ c, c ∈ connection_types document → c ≠ NotificationConnection →
      f_name <$> o_fields c = [ "edges"; "pageInfo" ].
Proof.
  rewrite connection_types_document.
  split; [by vm_compute |]. split; [by vm_compute |].
  split; [by vm_compute |].
  intros c Hc Hne.
  repeat (apply elem_of_cons in Hc as [-> | Hc]);
    first [ done | by apply elem_of_nil in Hc | by vm_compute ].
Qed.

End SchemaFacts.

(* ===================================================================== *)
(** * How the cohort list determines the dropzone gate *)
(* ===================================================================== *)

Module CohortLaws.
Import FeatureGates FeatureGatesFacts.

(** The gate expression of [FEATURE_GATES], as a boolean. *)
Lemma lookup_gate (a : Args) (b : bool) :
  FEATURE_GATES a !! "DROPZONE_ENABLED" = Some (VBool b)
  ↔ truthy (logical_and (binding (userId a))
              (includes (dropzoneUsers a) (binding (userId a)))) = b.
Proof.
  rewrite lookup_DROPZONE_ENABLED. unfold Boolean. split.
  - by intros [= ->].
  - by intros ->.
Qed.

Lemma gate_app (u : option string) (c1 c2 : list string) :
  truthy (logical_and (binding u) (includes (c1 ++ c2) (binding u)))
  = truthy (logical_and (binding u) (includes c1 (binding u)))
    || truthy (logical_and (binding u) (includes c2 (binding u))).
Proof.
  apply Bool.eq_iff_eq_true.
  rewrite orb_true_iff, !gate_truthy. split.
  - intros (s & Hs & Hne & [Hin | Hin]%elem_of_app); [left | right]; eauto.
  - intros [(s & Hs & Hne & Hin) | (s & Hs & Hne & Hin)];
      exists s; rewrite elem_of_app; auto.
Qed.

(** The cohort list counts only through whether it contains the user id:
    two calls with the same user id, whose lists agree on containing it,
    return the same flag set, whatever the order, the repetitions and the
    other members of the lists. *)
Theorem cohort_counts_through_membership (a b : Args) :
  userId a = userId b →
  (∀ u, userId a = Some u → (u ∈ dropzoneUsers a ↔ u ∈ dropzoneUsers b)) →
  FEATURE_GATES a = FEATURE_GATES b.
Proof.
  intros Hu Hm. rewrite !FEATURE_GATES_unfold. do 2 f_equal.
  unfold Boolean. do 2 f_equal. apply Bool.eq_iff_eq_true.
  rewrite !gate_truthy, <- Hu. split.
  - intros (s & Hs & Hne & Hin). exists s. repeat split; [done..|].
    by apply Hm.
  - intros (s & Hs & Hne & Hin). exists s. repeat split; [done..|].
    by apply Hm.
Qed.

Lemma cohort_counts_through_membership_witness :
  FEATURE_GATES (mkArgs ["u1"; "u2"] (Some "u2"))
  = FEATURE_GATES (mkArgs ["u2"; "u9"; "u2"] (Some "u2")).
Proof.
  apply cohort_counts_through_membership; [reflexivity |].
  intros u [= <-]. simpl.
  split; intros _; apply (bool_decide_unpack _); vm_compute; reflexivity.
Defined.

(** Enlarging the cohort never turns the gate off: when it is on for a
    cohort list, it is on for every list that contains that list's
    members. *)
Theorem cohort_monotone (u : option string) (c c' : list string) :
  c ⊆ c' →
  FEATURE_GATES (mkArgs c u) !! "DROPZONE_ENABLED" = Some (VBool true) →
  FEATURE_GATES (mkArgs c' u) !! "DROPZONE_ENABLED" = Some (VBool true).
Proof.
  intros Hsub. rewrite !lookup_gate. simpl. rewrite !gate_truthy.
  intros (s & Hs & Hne & Hin). exists s. repeat split; [done..|].
  by apply Hsub.
Qed.

Lemma cohort_monotone_witness :
  FEATURE_GATES (mkArgs ["u0"; "u1"; "u2"] (Some "u1")) !! "DROPZONE_ENABLED"
  = Some (VBool true).
Proof.
  apply (cohort_monotone (Some "u1") ["u1"]).
  - intros x Hx. apply list_elem_of_singleton in Hx as ->.
    apply (bool_decide_unpack _). vm_compute. reflexivity.
  - vm_compute. reflexivity.
Defined.

(** The gate of a concatenation is the disjunction of the gates: for the
    empty cohort the gate is off for every user id, and for [c1 ++ c2] it is
    on exactly when it is on for [c1] or for [c2]. *)
Theorem cohort_concatenation (u : option string) :
  FEATURE_GATES (mkArgs [] u) !! "DROPZONE_ENABLED" = Some (VBool false)
  ∧ ∀ c1 c2 : list string, ∃ b1 b2 : bool,
      FEATURE_GATES (mkArgs c1 u) !! "DROPZONE_ENABLED" = Some (VBool b1)
      ∧ FEATURE_GATES (mkArgs c2 u) !! "DROPZONE_ENABLED" = Some (VBool b2)
      ∧ FEATURE_GATES (mkArgs (c1 ++ c2) u) !! "DROPZONE_ENABLED"
        = Some (VBool (b1 || b2)).
Proof.
  split.
  - apply lookup_gate, not_true_is_false. simpl. rewrite gate_truthy.
    intros (s & _ & _ & Hin). by apply elem_of_nil in Hin.
  - intros c1 c2. do 2 eexists.
    split; [by apply lookup_gate |]. split; [by apply lookup_gate |].
    apply lookup_gate. simpl. apply gate_app.
Qed.

(** Enrolling and revoking: with the user id put in front of the cohort the
    gate is on unless the id is the empty string, and with every occurrence
    of the user id taken out of the cohort the gate is off. *)
Theorem enrol_and_revoke (u : string) (c : list string) :
  FEATURE_GATES (mkArgs (u :: c) (Some u)) !! "DROPZONE_ENABLED"
    = Some (VBool (negb (bool_decide (u = ""))))
  ∧ FEATURE_GATES (mkArgs (filter (λ x, x ≠ u) c) (Some u)) !! "DROPZONE_ENABLED"
    = Some (VBool false).
Proof.
  split; apply lookup_gate; cbn [userId dropzoneUsers].
  - apply Bool.eq_iff_eq_true. rewrite gate_truthy, negb_true_iff,
      bool_decide_eq_false. split.
    + by intros (s & [= <-] & Hne & _).
    + intros Hne. exists u. repeat split; [done |]. apply list_elem_of_here.
  - apply not_true_is_false. rewrite gate_truthy.
    intros (s & [= <-] & _ & Hin). apply list_elem_of_filter in Hin as [Hne _].
    done.
Qed.

End CohortLaws.

(* ===================================================================== *)
(** * The schema document as a well-formed type system *)
(* ===================================================================== *)

Module SchemaValidity.
Import Schema Validation.

(** ** Reading lemmas *)

(** A decidable property holds of every element of a list when its decision
    procedure says so. *)
Lemma decide_all {A} (P : A → Prop) `{∀ x, Decision (P x)} (l : list A) :
  bool_decide (Forall P l) = true → ∀ x, x ∈ l → P x.
Proof. intros Hb. apply Forall_forall. by apply bool_decide_eq_true in Hb. Qed.

Ltac by_evaluation := apply (bool_decide_unpack _); vm_compute; reflexivity.

(** The fields [all_fields] lists are the fields of the document's type
    definitions, under the defining type's name. *)
Lemma elem_of_all_fields (doc : list TypeSystemDefinition) (n : string)
    (f : FieldDefinition) :
  (n, f) ∈ all_fields doc
  ↔ ∃ d k, d ∈ doc ∧ defined_type d = Some (n, k) ∧ f ∈ fields_of d.
Proof.
  unfold all_fields. rewrite list_elem_of_bind. split.
  - intros (d & Hf & Hd). destruct (defined_type d) as [[m k]|] eqn:E.
    + apply list_elem_of_fmap in Hf as (g & [= -> ->] & Hg). by exists d, k.
    + by apply elem_of_nil in Hf.
  - intros (d & k & Hd & E & Hf). exists d. split; [| done].
    rewrite E. apply list_elem_of_fmap. by exists f.
Qed.

(** The arguments [all_arguments] lists are the arguments of those fields. *)
Lemma elem_of_all_arguments (doc : list TypeSystemDefinition) (n fn : string)
    (a : InputValueDefinition) :
  (n, fn, a) ∈ all_arguments doc
  ↔ ∃ f, (n, f) ∈ all_fields doc ∧ f_name f = fn ∧ a ∈ f_arguments f.
Proof.
  unfold all_arguments. rewrite list_elem_of_bind. split.
  - intros ([m f] & Ha & Hf). simpl in Ha.
    apply list_elem_of_fmap in Ha as (a' & Heq & Ha).
    injection Heq as -> -> ->. by exists f.
  - intros (f & Hf & <- & Ha). exists (n, f). split; [| done].
    apply list_elem_of_fmap. by exists a.
Qed.

(** The directives [applied_directives] lists are the ones those fields
    apply. *)
Lemma elem_of_applied_directives (doc : list TypeSystemDefinition)
    (n fn : string) (x : Directive) :
  (n, fn, x) ∈ applied_directives doc
  ↔ ∃ f, (n, f) ∈ all_fields doc ∧ f_name f = fn ∧ x ∈ f_directives f.
Proof.
  unfold applied_directives. rewrite list_elem_of_bind. split.
  - intros ([m f] & Hx & Hf). simpl in Hx.
    apply list_elem_of_fmap in Hx as (x' & Heq & Hx).
    injection Heq as -> -> ->. by exists f.
  - intros (f & Hf & <- & Hx). exists (n, f). split; [| done].
    apply list_elem_of_fmap. by exists x.
Qed.

(** Following references only reaches names in use. *)
Lemma entry_points_in_use (doc : list TypeSystemDefinition) (n : string) :
  n ∈ entry_points doc → in_use doc n.
Proof.
  unfold entry_points. rewrite list_elem_of_bind. intros (d & Hn & Hd).
  destruct (defined_type d) eqn:E; [by apply elem_of_nil in Hn |].
  by apply (in_use_entry doc d).
Qed.

Lemma successors_in_use (doc : list TypeSystemDefinition) (m n : string) :
  in_use doc m → n ∈ successors doc m → in_use doc n.
Proof.
  intros Hm. unfold successors. rewrite list_elem_of_bind.
  intros (d & Hn & Hd). destruct (defined_type d) as [[m' k]|] eqn:E.
  - case_decide as Heq; [subst m' | by apply elem_of_nil in Hn].
    by apply (in_use_step doc d m k).
  - by apply elem_of_nil in Hn.
Qed.

Lemma follow_in_use (doc : list TypeSystemDefinition) (fuel : nat) :
  ∀ seen, (∀ n, n ∈ seen → in_use doc n) →
          ∀ n, n ∈ follow doc fuel seen → in_use doc n.
Proof.
  induction fuel as [|fuel IH]; intros seen Hseen n; simpl; [by apply Hseen |].
  apply IH. intros n'.
  rewrite elem_of_remove_dups, elem_of_app, list_elem_of_bind.
  intros [Hn' | (m & Hn' & Hm)]; [by apply Hseen |].
  eapply successors_in_use; [by apply Hseen | done].
Qed.

(** Every name a definition of the document refers to is in the table of
    types. *)
Lemma references_defined (d : TypeSystemDefinition) (n : string) :
  d ∈ document → n ∈ references d → n ∈ (type_table document).*1.
Proof.
  intros Hd Hn.
  refine (decide_all (λ n, n ∈ (type_table document).*1) (references d) _ n Hn).
  clear Hn. revert d Hd.
  refine (decide_all
    (λ d, bool_decide
            (Forall (λ n, n ∈ (type_table document).*1) (references d)) = true)
    document _).
  vm_compute. reflexivity.
Qed.

Lemma in_use_defined (n : string) :
  in_use document n → n ∈ (type_table document).*1.
Proof. intros [d n' Hd _ Hn | d m k n' _ Hd _ Hn]; by eapply references_defined. Qed.

(** Settles a property of every row of a table read off the document. *)
Ltac from_table P l H := refine (decide_all P l _ _ H); vm_compute; reflexivity.

(** ** Names and references *)

(** No type name is defined twice or shadows a built-in scalar; within a
    type no two fields, input fields or enum values share a name; within a
    field no two arguments do. *)
Theorem names_unique :
  NoDup (type_table document).*1
  ∧ (∀ d, d ∈ document →
       NoDup (f_name <$> fields_of d)
       ∧ NoDup (i_name <$> input_fields_of d)
       ∧ NoDup (values_of d))
  ∧ (∀ n f, (n, f) ∈ all_fields document → NoDup (i_name <$> f_arguments f)).
Proof.
  split; [by_evaluation |]. split.
  - intros d H.
    from_table (λ d, NoDup (f_name <$> fields_of d)
                     ∧ NoDup (i_name <$> input_fields_of d)
                     ∧ NoDup (values_of d)) document H.
  - intros n f H.
    from_table (λ nf : string * FieldDefinition,
                  NoDup (i_name <$> f_arguments nf.2)) (all_fields document) H.
Qed.

(** The type of every field of every object and interface type names a type
    that is defined exactly once and may be returned: a scalar, an enum, an
    object or an interface, never an input object. *)
Theorem field_types_are_output_types (n : string) (f : FieldDefinition) :
  (n, f) ∈ all_fields document →
  is_output_type document (named_type (f_type f)).
Proof.
  intros H.
  from_table (λ nf : string * FieldDefinition,
                is_output_type document (named_type (f_type nf.2)))
             (all_fields document) H.
Qed.

Lemma field_types_are_output_types_witness :
  is_output_type document "NftEdge".
Proof.
  apply (field_types_are_output_types "NftConnection"
           (Field None "edges" []
              (NonNull (ListOf (NonNull (Named "NftEdge")))) [])).
  by_evaluation.
Defined.

(** The type of every field argument and of every input-object field names
    a type that is defined exactly once and may be passed in: a scalar, an
    enum or an input object, never an object or an interface. *)
Theorem input_positions_take_input_types :
  (∀ n fn a, (n, fn, a) ∈ all_arguments document →
     is_input_type document (named_type (i_type a)))
  ∧ (∀ n i, (n, i) ∈ all_input_fields document →
       is_input_type document (named_type (i_type i))).
Proof.
  split.
  - intros n fn a H.
    from_table (λ x : string * string * InputValueDefinition,
                  is_input_type document (named_type (i_type x.2)))
               (all_arguments document) H.
  - intros n i H.
    from_table (λ x : string * InputValueDefinition,
                  is_input_type document (named_type (i_type x.2)))
               (all_input_fields document) H.
Qed.

(** The [schema] block binds each operation once, among them [query], only
    [query] and [mutation], each to an object type of the document; and
    every name after [implements] is an interface of the document. *)
Theorem roots_and_interfaces_resolve :
  NoDup (root_types document).*1
  ∧ "query" ∈ (root_types document).*1
  ∧ (∀ op n, (op, n) ∈ root_types document →
       op ∈ [ "query"; "mutation" ] ∧ kinds_of document n = [KObject])
  ∧ (∀ o i, ObjectTypeDefinition o ∈ document → i ∈ o_interfaces o →
       kinds_of document i = [KInterface]).
Proof.
  split; [by_evaluation |]. split; [by_evaluation |]. split.
  - intros op n H.
    from_table (λ r : string * string,
                  r.1 ∈ [ "query"; "mutation" ]
                  ∧ kinds_of document r.2 = [KObject])
               (root_types document) H.
  - intros o i Ho Hi. revert i Hi.
    apply (decide_all (λ i, kinds_of document i = [KInterface])).
    apply SchemaFacts.elem_of_object_types in Ho.
    refine (decide_all
      (λ o, bool_decide
              (Forall (λ i, kinds_of document i = [KInterface])
                 (o_interfaces o)) = true)
      (object_types document) _ _ Ho).
    vm_compute. reflexivity.
Qed.

(** A type name other than a built-in scalar is in use, that is reached from
    the [schema] block or a directive definition by following references,
    exactly when the document defines it: nothing is referred to that is not
    defined, and nothing is defined that is not used. *)
Theorem in_use_iff_defined (n : string) :
  n ∉ built_in_scalars →
  in_use document n ↔ n ∈ (omap defined_type document).*1.
Proof.
  intros Hb. split.
  - intros Hn%in_use_defined. unfold type_table in Hn.
    rewrite fmap_app, elem_of_app, <- list_fmap_compose in Hn.
    destruct Hn as [Hn | Hn]; [| done].
    exfalso. apply Hb. by rewrite list_fmap_id in Hn.
  - intros Hn.
    apply (follow_in_use document 6 (entry_points document));
      [apply entry_points_in_use |].
    remember (follow document 6 (entry_points document)) as seen eqn:Hseen.
    vm_compute in Hseen. subst seen.
    match goal with
    | |- n ∈ ?seen =>
        from_table (λ n, n ∈ seen) ((omap defined_type document).*1) Hn
    end.
Qed.

Lemma in_use_iff_defined_witness :
  in_use document "PageInfo" ↔ "PageInfo" ∈ (omap defined_type document).*1.
Proof. apply in_use_iff_defined. by_evaluation. Defined.

(** ** Directives and cache policies *)

(** An integer constant is a value of [Int] exactly when it fits in 32 bits,
    sign included. *)
Lemma value_of_type_Int (doc : list TypeSystemDefinition) (z : Z) :
  value_of_type doc (IntValue z) (Named "Int")
  ↔ (-2147483648 ≤ z ≤ 2147483647)%Z.
Proof.
  unfold value_of_type.
  assert (Hpow : (2 ^ 31 = 2147483648)%Z) by reflexivity. rewrite Hpow.
  split; [intros [_ H] | intros H; split; [done |]]; lia.
Qed.

(** Every directive a field applies is either [@deprecated], with the one
    argument [reason], a string, or a directive the document defines exactly
    once, for field definitions among other places, and then its arguments
    have distinct names, each declared by the definition and given a value
    of the declared type. *)
Theorem applied_directives_declared (n fn : string) (x : Directive) :
  (n, fn, x) ∈ applied_directives document →
  (d_name x = "deprecated"
   ∧ (d_arguments x).*1 = [ "reason" ]
   ∧ Forall (λ kv, value_of_type document kv.2 (Named "String"))
       (d_arguments x))
  ∨ (length (directive_definitions document (d_name x)) = 1
     ∧ NoDup (d_arguments x).*1
     ∧ Forall (λ al, FIELD_DEFINITION ∈ al.2
                     ∧ Forall (argument_declared document al.1)
                         (d_arguments x))
         (directive_definitions document (d_name x))).
Proof.
  intros H.
  from_table
    (λ r : string * string * Directive,
       (d_name r.2 = "deprecated"
        ∧ (d_arguments r.2).*1 = [ "reason" ]
        ∧ Forall (λ kv, value_of_type document kv.2 (Named "String"))
            (d_arguments r.2))
       ∨ (length (directive_definitions document (d_name r.2)) = 1
          ∧ NoDup (d_arguments r.2).*1
          ∧ Forall (λ al, FIELD_DEFINITION ∈ al.2
                          ∧ Forall (argument_declared document al.1)
                              (d_arguments r.2))
              (directive_definitions document (d_name r.2))))
    (applied_directives document) H.
Qed.

Lemma applied_directives_declared_witness :
  length (directive_definitions document "cacheControl") = 1
  ∧ NoDup [ "maxAge"; "scope" ]
  ∧ Forall (λ al, FIELD_DEFINITION ∈ al.2
                  ∧ Forall (argument_declared document al.1)
                      [ ("maxAge", IntValue 60);
                        ("scope", EnumValue "PRIVATE") ])
      (directive_definitions document "cacheControl").
Proof.
  destruct (applied_directives_declared "Query" "user"
              (At "cacheControl"
                 [ ("maxAge", IntValue 60); ("scope", EnumValue "PRIVATE") ]))
    as [[Hname _] | Hdeclared].
  - by_evaluation.
  - discriminate Hname.
  - exact Hdeclared.
Defined.

(** Every [@cacheControl] on a field has one of two shapes: its own
    [maxAge], a positive integer, with no scope or the scope [PRIVATE] and
    without [inheritMaxAge]; or [inheritMaxAge: true] with neither [maxAge]
    nor a scope.  A field of a root operation type never inherits. *)
Theorem cache_policy_shapes (n fn : string) (x : Directive) :
  (n, fn, x) ∈ applied_directives document →
  d_name x = "cacheControl" →
  (declares_max_age x ∨ inherits_max_age x)
  ∧ (inherits_max_age x → n ∉ (root_types document).*2).
Proof.
  intros H.
  from_table
    (λ r : string * string * Directive,
       d_name r.2 = "cacheControl" →
       (declares_max_age r.2 ∨ inherits_max_age r.2)
       ∧ (inherits_max_age r.2 → r.1.1 ∉ (root_types document).*2))
    (applied_directives document) H.
Qed.

Lemma cache_policy_shapes_witness :
  (declares_max_age (At "cacheControl" [ ("inheritMaxAge", BooleanValue true) ])
   ∨ inherits_max_age (At "cacheControl" [ ("inheritMaxAge", BooleanValue true) ]))
  ∧ (inherits_max_age (At "cacheControl" [ ("inheritMaxAge", BooleanValue true) ])
     → "Balances" ∉ (root_types document).*2).
Proof.
  apply (cache_policy_shapes "Balances" "tokens"); [by_evaluation | reflexivity].
Defined.

(** ** Identity, filters and pagination *)

(** An object type has a field named [id] exactly when it declares
    [implements Node]. *)
Theorem id_iff_Node (o : ObjectType) :
  ObjectTypeDefinition o ∈ document →
  implements o "Node" ↔ fields_named "id" (o_fields o) ≠ [].
Proof.
  intros H%SchemaFacts.elem_of_object_types.
  from_table (λ o, implements o "Node" ↔ fields_named "id" (o_fields o) ≠ [])
             (object_types document) H.
Qed.

Lemma id_iff_Node_witness :
  implements Friendship "Node" ↔ fields_named "id" (o_fields Friendship) ≠ [].
Proof. apply id_iff_Node. by_evaluation. Defined.

(** Every field argument is required, except the arguments named [filters]:
    those are nullable and typed by an input object named [...FiltersInput].
    Every field of every input object is nullable, so any filter may be
    left out. *)
Theorem filters_are_optional :
  (∀ n fn a, (n, fn, a) ∈ all_arguments document →
     (nullable (i_type a) ↔ i_name a = "filters")
     ∧ (i_name a = "filters" →
          i_type a = Named (named_type (i_type a))
          ∧ ends_with "FiltersInput" (named_type (i_type a))
          ∧ kinds_of document (named_type (i_type a)) = [KInputObject]))
  ∧ (∀ n i, (n, i) ∈ all_input_fields document → nullable (i_type i)).
Proof.
  split.
  - intros n fn a H.
    from_table
      (λ r : string * string * InputValueDefinition,
         (nullable (i_type r.2) ↔ i_name r.2 = "filters")
         ∧ (i_name r.2 = "filters" →
              i_type r.2 = Named (named_type (i_type r.2))
              ∧ ends_with "FiltersInput" (named_type (i_type r.2))
              ∧ kinds_of document (named_type (i_type r.2)) = [KInputObject]))
      (all_arguments document) H.
  - intros n i H.
    from_table (λ r : string * InputValueDefinition, nullable (i_type r.2))
               (all_input_fields document) H.
Qed.

(** Every object type named [...Edge] has exactly the fields [cursor] and
    [node], and is the type of exactly one field of the document: the
    [edges] field of a Connection type. *)
Theorem edge_types_belong_to_one_connection (e : ObjectType) :
  ObjectTypeDefinition e ∈ document →
  ends_with "Edge" (o_name e) →
  f_name <$> o_fields e = [ "cursor"; "node" ]
  ∧ ∃ c, (λ nf : string * FieldDefinition, (nf.1, f_name nf.2))
           <$> filter (λ nf, named_type (f_type nf.2) = o_name e)
                 (all_fields document)
         = [ (c, "edges") ]
         ∧ ends_with "Connection" c.
Proof.
  intros H%SchemaFacts.elem_of_object_types Hedge.
  assert (He : e ∈ filter (λ o, ends_with "Edge" (o_name o))
                 (object_types document)).
  { by apply list_elem_of_filter. }
  clear H Hedge.
  assert (Hl : filter (λ o, ends_with "Edge" (o_name o)) (object_types document)
               = [ NftEdge; NotificationEdge; TokenBalanceEdge;
                   TransactionEdge; WalletEdge ]) by (by vm_compute).
  rewrite Hl in He.
  repeat (apply elem_of_cons in He as [-> | He]);
    [ split; [by vm_compute | exists "NftConnection"]
    | split; [by vm_compute | exists "NotificationConnection"]
    | split; [by vm_compute | exists "TokenBalanceConnection"]
    | split; [by vm_compute | exists "TransactionConnection"]
    | split; [by vm_compute | exists "WalletConnection"]
    | by apply elem_of_nil in He ];
    (split; [by vm_compute | by_evaluation]).
Qed.

Lemma edge_types_belong_to_one_connection_witness :
  f_name <$> o_fields WalletEdge = [ "cursor"; "node" ]
  ∧ ∃ c, (λ nf : string * FieldDefinition, (nf.1, f_name nf.2))
           <$> filter (λ nf, named_type (f_type nf.2) = o_name WalletEdge)
                 (all_fields document)
         = [ (c, "edges") ]
         ∧ ends_with "Connection" c.
Proof. apply edge_types_belong_to_one_connection; by_evaluation. Defined.

(** Every field that returns a Connection type returns it nullable, carries
    [@cacheControl], and takes no argument besides [filters]; and each
    Connection type of the document is returned by exactly one field. *)
Theorem connections_are_entered_once :
  (∀ n f, (n, f) ∈ all_fields document →
     ends_with "Connection" (named_type (f_type f)) →
     f_type f = Named (named_type (f_type f))
     ∧ has_directive "cacheControl" f
     ∧ i_name <$> f_arguments f ⊆ [ "filters" ])
  ∧ (λ nf : string * FieldDefinition, named_type (f_type nf.2))
      <$> filter (λ nf, ends_with "Connection" (named_type (f_type nf.2)))
            (all_fields document)
    ≡ₚ o_name <$> connection_types document.
Proof.
  split.
  - intros n f H.
    from_table
      (λ nf : string * FieldDefinition,
         ends_with "Connection" (named_type (f_type nf.2)) →
         f_type nf.2 = Named (named_type (f_type nf.2))
         ∧ has_directive "cacheControl" nf.2
         ∧ i_name <$> f_arguments nf.2 ⊆ [ "filters" ])
      (all_fields document) H.
  - by_evaluation.
Qed.

(** [PageInfo] is defined once, with exactly four fields: the two flags
    [hasNextPage] and [hasPreviousPage], non-null booleans, and the two
    cursors [startCursor] and [endCursor], nullable strings; and the
    [pageInfo] field of every Connection type is of this type. *)
Theorem PageInfo_flags_required_cursors_nullable :
  object_type document "PageInfo" = Some PageInfo
  ∧ kinds_of document "PageInfo" = [KObject]
  ∧ (λ f, (f_name f, f_arguments f, f_type f)) <$> o_fields PageInfo
    = [ ("hasNextPage", [], NonNull (Named "Boolean"));
        ("hasPreviousPage", [], NonNull (Named "Boolean"));
        ("startCursor", [], Named "String");
        ("endCursor", [], Named "String") ]
  ∧ ∀ c, c ∈ connection_types document →
      exposes c "pageInfo" (NonNull (Named "PageInfo")).
Proof.
  split; [by vm_compute |]. split; [by vm_compute |].
  split; [by vm_compute |].
  intros c H.
  from_table (λ c, exposes c "pageInfo" (NonNull (Named "PageInfo")))
             (connection_types document) H.
Qed.

End SchemaValidity.
